(** * The installation manager of mcp-registry (src/installer.ts)

    A shallow embedding of the [Installer] class and of the part of
    src/config.ts it calls, over an explicit model of the Node.js
    services they use: the file system ([fs]), [path.join], [JSON],
    [child_process.execSync] and the clock.

    - A method is a computation in a state and exception monad over the
      [world]: the files, the log of the commands run, the clock.
    - The file system is a finite map from resolved paths to nodes;
      permissions, links and input/output failures are not modelled.
    - The values read from JSON documents are untyped, as they are at
      run time: a ledger document may hold any JSON value.
    - A manifest is typed, as src/types.ts declares it. *)

From Stdlib Require Import ZArith Ascii String DecimalString.
From stdpp Require Import gmap strings list fin_maps.

Local Open Scope string_scope.
Local Open Scope list_scope.

(** ** JSON values

    What [JSON.parse] returns and [JSON.stringify] prints. A number
    carries an integer: the installer never inspects a number. *)

#[local] Unset Elimination Schemes.
Inductive json : Type :=
| JNull
| JBool (b : bool)
| JNum (z : Z)
| JStr (s : string)
| JArr (items : list json)
| JObj (fields : list (string * json)).
#[local] Set Elimination Schemes.

(** Induction over a value and the values nested in it. *)
Section json_induction.
Variable P : json -> Prop.
Hypothesis Hnull : P JNull.
Hypothesis Hbool : forall b, P (JBool b).
Hypothesis Hnum : forall z, P (JNum z).
Hypothesis Hstr : forall s, P (JStr s).
Hypothesis Harr : forall items, Forall P items -> P (JArr items).
Hypothesis Hobj : forall fields, Forall (fun kv => P kv.2) fields -> P (JObj fields).

Fixpoint json_ind (v : json) : P v :=
    match v with
    | JNull => Hnull
    | JBool b => Hbool b
    | JNum z => Hnum z
    | JStr s => Hstr s
    | JArr items =>
        Harr items
          ((fix all (l : list json) : Forall P l :=
              match l with
              | [] => @List.Forall_nil _ P
              | x :: rest => @List.Forall_cons _ P x rest (json_ind x) (all rest)
              end) items)
    | JObj fields =>
        Hobj fields
          ((fix all (l : list (string * json)) : Forall (fun kv => P kv.2) l :=
              match l with
              | [] => @List.Forall_nil _ (fun kv => P kv.2)
              | kv :: rest => @List.Forall_cons _ (fun kv => P kv.2) kv rest (json_ind kv.2) (all rest)
              end) fields)
    end.
End json_induction.

(** A JavaScript value read out of a JSON document: [None] is [undefined]. *)
Definition jsval : Type := option json.

Fixpoint assoc (k : string) (fields : list (string * json)) : jsval :=
  match fields with
  | [] => None
  | (k', v) :: rest => if String.eqb k k' then Some v else assoc k rest
  end.

(** ** Exceptions *)

Inductive errno := ENOENT | EISDIR | ENOTDIR | EEXIST.

Inductive exn : Type :=
| Error (message : string)          (* [throw new Error(message)] *)
| TypeError                         (* raised by the language or by an argument check *)
| SyntaxError                       (* raised by [JSON.parse] *)
| SystemError (code : errno)        (* raised by [fs] *)
| ChildProcessError (message : string). (* raised by [execSync] *)

Inductive result (A : Type) : Type :=
| Ok (a : A)
| Throw (e : exn).
Arguments Ok {A} a.
Arguments Throw {A} e.

(** ** Paths

    The file system is addressed by paths in resolved form: the list of
    the segments below the root. [join] enters the segments of its second
    argument one by one, which is where [fs] finds the string that
    [path.join] returns. The string itself is [path_join]: normalised,
    relative when its first argument is, and with the trailing separator
    of its last argument kept. *)

Abbreviation path := (list string) (only parsing).

Fixpoint segments (s : string) : list string :=
  match s with
  | EmptyString => [""]
  | String c s' =>
      if Ascii.eqb c "/"%char then "" :: segments s'
      else match segments s' with
           | seg :: rest => String c seg :: rest
           | [] => [String c ""]
           end
  end.

Definition enter (p : path) (seg : string) : path :=
  if String.eqb seg "" then p
  else if String.eqb seg "." then p
  else if String.eqb seg ".." then removelast p
  else p ++ [seg].

Definition join (p : path) (s : string) : path :=
  fold_left enter (segments s) p.

Fixpoint path_to_string (p : path) : string :=
  match p with
  | [] => "/"
  | [seg] => "/" +:+ seg
  | seg :: rest => "/" +:+ seg +:+ path_to_string rest
  end.

Definition is_absolute (s : string) : bool :=
  match s with
  | String c _ => Ascii.eqb c "/"%char
  | EmptyString => false
  end.

Fixpoint ends_with_separator (s : string) : bool :=
  match s with
  | EmptyString => false
  | String c rest =>
      match rest with
      | EmptyString => Ascii.eqb c "/"%char
      | String _ _ => ends_with_separator rest
      end
  end.

(** A segment of a relative path: [..] is kept where there is nothing
    left to leave. *)
Definition enter_relative (p : list string) (seg : string) : list string :=
  if String.eqb seg "" then p
  else if String.eqb seg "." then p
  else if String.eqb seg ".." then
    match rev p with
    | [] => [".."]
    | top :: _ => if String.eqb top ".." then p ++ [".."] else removelast p
    end
  else p ++ [seg].

Fixpoint relative_to_string (p : list string) : string :=
  match p with
  | [] => ""
  | [seg] => seg
  | seg :: rest => seg +:+ "/" +:+ relative_to_string rest
  end.

(** [path.normalize] *)
Definition normalize (s : string) : string :=
  if String.eqb s "" then "."
  else
    let trailing := if ends_with_separator s then "/" else "" in
    if is_absolute s then
      match fold_left enter (segments s) [] with
      | [] => "/"
      | p => path_to_string p +:+ trailing
      end
    else
      match fold_left enter_relative (segments s) [] with
      | [] => "." +:+ trailing
      | p => relative_to_string p +:+ trailing
      end.

(** [path.join(a, b)]: an empty argument is left out. *)
Definition path_join (a b : string) : string :=
  if String.eqb a "" then normalize b
  else if String.eqb b "" then normalize a
  else normalize (a +:+ "/" +:+ b).

(** A segment that [join] appends as it is. *)
Definition plain_segment (s : string) : bool :=
  match segments s with
  | [seg] => negb (String.eqb seg "" || String.eqb seg "." || String.eqb seg "..")
  | _ => false
  end.

(** ** The file system and the rest of the world *)

Inductive node : Type :=
| Dir
| File (data : string).

Record world : Type := World {
  files : gmap path node;
  spawned : list (string * option path);   (* the [execSync] calls made so far *)
  ticks : nat                              (* the number of clock readings so far *)
}.

(** The root is always a directory. *)
Definition stat (fs : gmap path node) (p : path) : option node :=
  match p with
  | [] => Some Dir
  | _ => fs !! p
  end.

Definition set_files (fs : gmap path node) (w : world) : world :=
  {| files := fs; spawned := spawned w; ticks := ticks w |}.

(** ** Computations: a state and exception monad over the world *)

Definition M (A : Type) : Type := world -> result A * world.

Definition ret {A} (a : A) : M A := fun w => (Ok a, w).
Definition throw {A} (e : exn) : M A := fun w => (Throw e, w).
Definition bind {A B} (c : M A) (k : A -> M B) : M B :=
  fun w => match c w with
           | (Ok a, w') => k a w'
           | (Throw e, w') => (Throw e, w')
           end.
Definition try_catch {A} (c : M A) (handler : exn -> M A) : M A :=
  fun w => match c w with
           | (Ok a, w') => (Ok a, w')
           | (Throw e, w') => handler e w'
           end.
Definition lift {A} (r : result A) : M A := fun w => (r, w).

Declare Scope js_scope.
Delimit Scope js_scope with js.
Notation "'let*' x := c 'in' k" := (bind c (fun x => k))
  (at level 10, x name, c at level 100, k at level 200) : js_scope.
Notation "c ;; k" := (bind c (fun _ => k))
  (at level 100, k at level 200, right associativity) : js_scope.
Local Open Scope js_scope.

(** ** [fs] *)

Definition existsSync (p : path) : M bool :=
  fun w => (Ok (bool_decide (is_Some (stat (files w) p))), w).

(** [mkdirSync(p, { recursive: true })]: nothing to do on a directory;
    otherwise the parent is made first. [rp] is the path reversed;
    [leaf] tells the path asked for from its ancestors. *)
Fixpoint mkdirp (leaf : bool) (rp : list string) (fs : gmap path node) : errno + gmap path node :=
  match stat fs (rev rp) with
  | Some Dir => inr fs
  | Some (File _) => inl (if leaf then EEXIST else ENOTDIR)
  | None =>
      match rp with
      | [] => inr fs
      | _ :: rp' =>
          match mkdirp false rp' fs with
          | inl e => inl e
          | inr fs' => inr (<[rev rp := Dir]> fs')
          end
      end
  end.

Definition mkdirSync (p : path) : M unit :=
  fun w => match mkdirp true (rev p) (files w) with
           | inl e => (Throw (SystemError e), w)
           | inr fs => (Ok tt, set_files fs w)
           end.

Definition writeFileSync (p : path) (data : string) : M unit :=
  fun w => match stat (files w) p with
           | Some Dir => (Throw (SystemError EISDIR), w)
           | _ =>
               match stat (files w) (removelast p) with
               | Some Dir => (Ok tt, set_files (<[p := File data]> (files w)) w)
               | Some (File _) => (Throw (SystemError ENOTDIR), w)
               | None => (Throw (SystemError ENOENT), w)
               end
           end.

Definition readFileSync (p : path) : M string :=
  fun w => match stat (files w) p with
           | Some (File data) => (Ok data, w)
           | Some Dir => (Throw (SystemError EISDIR), w)
           | None => (Throw (SystemError ENOENT), w)
           end.

(** [rmSync(p, { recursive: true, force: true })] *)
Definition rmSync (p : path) : M unit :=
  fun w => (Ok tt, set_files (filter (fun kv => ¬ p `prefix_of` kv.1) (files w)) w).

(** ** The language: property access and string conversion *)

(** [v.k] for the property names the installer reads ([id], [path],
    [runtime], [type], [entry], [installation], [dockerImage]): reading
    a property of [undefined] or [null] raises a TypeError, an object
    yields the member, every other value yields [undefined]. *)
Definition get (v : jsval) (k : string) : result jsval :=
  match v with
  | None | Some JNull => Throw TypeError
  | Some (JObj fields) => Ok (assoc k fields)
  | Some _ => Ok None
  end.

Arguments get : simpl never.

(** [v === s] for a string [s] *)
Definition strict_eq_string (v : jsval) (s : string) : bool :=
  match v with
  | Some (JStr s') => String.eqb s' s
  | _ => false
  end.

(** The value of [v] in a condition. *)
Definition js_truthy (v : json) : bool :=
  match v with
  | JNull => false
  | JBool b => b
  | JNum z => negb (Z.eqb z 0)
  | JStr s => negb (String.eqb s "")
  | JArr _ | JObj _ => true
  end.

Definition string_of_Z (z : Z) : string := NilZero.string_of_int (Z.to_int z).

(** The string a template literal puts in place of [${v}]. *)
Fixpoint to_display (v : json) : string :=
  match v with
  | JNull => "null"
  | JBool true => "true"
  | JBool false => "false"
  | JNum z => string_of_Z z
  | JStr s => s
  | JArr items =>
      (fix go (l : list json) : string :=
         match l with
         | [] => ""
         | x :: rest =>
             (match x with JNull => "" | _ => to_display x end)
             +:+ (match rest with [] => "" | _ => "," +:+ go rest end)
         end) items
  | JObj _ => "[object Object]"
  end.

Definition template (v : jsval) : string :=
  match v with
  | None => "undefined"
  | Some j => to_display j
  end.

(** The value of an optional string in a condition: [undefined] and the
    empty string are falsy. *)
Definition truthy (o : option string) : option string :=
  match o with
  | Some s => if String.eqb s "" then None else Some s
  | None => None
  end.

Definition nl : string := String (Ascii.ascii_of_nat 10) "".

(** ** src/types.ts *)

Inductive runtime_type := node_runtime | python_runtime | docker_runtime | binary_runtime.
Inductive capability_type := tool | resource | prompt.

Record Author : Type := {
  author_name : string;
  author_email : option string;
  author_url : option string
}.

Record Runtime : Type := {
  type : runtime_type;
  entry : string;
  env : option (list string);
  envOptional : option (list (string * string))
}.

Record Installation : Type := {
  npmPackage : option string;
  pypiPackage : option string;
  dockerImage : option string;
  githubRepo : option string;
  command : option string
}.

Record MCPCapability : Type := {
  capability_kind : capability_type;
  capability_name : string;
  capability_description : string;
  inputSchema : option (list (string * json));
  outputSchema : option (list (string * json))
}.

Record Stats : Type := {
  downloads : Z;
  rating : Z;
  reviewCount : Z;
  lastUpdated : string
}.

Record MCPServerManifest : Type := {
  manifest_id : string;
  name : string;
  description : string;
  manifest_version : string;
  author : Author;
  repository : option string;
  homepage : option string;
  license : string;
  keywords : list string;
  mcpVersion : string;
  runtime : Runtime;
  installation : Installation;
  capabilities : list MCPCapability;
  stats : option Stats
}.

Record InstalledServer : Type := {
  server_id : string;
  server_version : string;
  server_path : string;
  installedAt : string;
  updatedAt : string;
  server_config : option (list (string * json))
}.

Record RegistryConfig : Type := {
  registryUrl : string;
  cacheDir : path;
  config_installDir : path;
  mcpConfigPath : path
}.

(** *** The objects as [JSON.stringify] sees them: an optional member
    that is [undefined] is left out. *)

Definition member {A} (k : string) (f : A -> json) (o : option A) : list (string * json) :=
  match o with
  | Some a => [(k, f a)]
  | None => []
  end.

Definition runtime_type_to_string (t : runtime_type) : string :=
  match t with
  | node_runtime => "node"
  | python_runtime => "python"
  | docker_runtime => "docker"
  | binary_runtime => "binary"
  end.

Definition capability_type_to_string (t : capability_type) : string :=
  match t with
  | tool => "tool"
  | resource => "resource"
  | prompt => "prompt"
  end.

Definition strings_to_json (l : list string) : json := JArr (map JStr l).

Definition author_to_json (a : Author) : json :=
  JObj ([("name", JStr (author_name a))]
        ++ member "email" JStr (author_email a)
        ++ member "url" JStr (author_url a)).

Definition runtime_to_json (r : Runtime) : json :=
  JObj ([("type", JStr (runtime_type_to_string (type r)));
         ("entry", JStr (entry r))]
        ++ member "env" strings_to_json (env r)
        ++ member "envOptional" (fun kvs => JObj (map (fun kv => (kv.1, JStr kv.2)) kvs)) (envOptional r)).

Definition installation_to_json (i : Installation) : json :=
  JObj (member "npmPackage" JStr (npmPackage i)
        ++ member "pypiPackage" JStr (pypiPackage i)
        ++ member "dockerImage" JStr (dockerImage i)
        ++ member "githubRepo" JStr (githubRepo i)
        ++ member "command" JStr (command i)).

Definition capability_to_json (c : MCPCapability) : json :=
  JObj ([("type", JStr (capability_type_to_string (capability_kind c)));
         ("name", JStr (capability_name c));
         ("description", JStr (capability_description c))]
        ++ member "inputSchema" JObj (inputSchema c)
        ++ member "outputSchema" JObj (outputSchema c)).

Definition stats_to_json (s : Stats) : json :=
  JObj [("downloads", JNum (downloads s));
        ("rating", JNum (rating s));
        ("reviewCount", JNum (reviewCount s));
        ("lastUpdated", JStr (lastUpdated s))].

Definition manifest_to_json (m : MCPServerManifest) : json :=
  JObj ([("id", JStr (manifest_id m));
         ("name", JStr (name m));
         ("description", JStr (description m));
         ("version", JStr (manifest_version m));
         ("author", author_to_json (author m))]
        ++ member "repository" JStr (repository m)
        ++ member "homepage" JStr (homepage m)
        ++ [("license", JStr (license m));
            ("keywords", strings_to_json (keywords m));
            ("mcpVersion", JStr (mcpVersion m));
            ("runtime", runtime_to_json (runtime m));
            ("installation", installation_to_json (installation m));
            ("capabilities", JArr (map capability_to_json (capabilities m)))]
        ++ member "stats" stats_to_json (stats m)).

Definition server_to_json (s : InstalledServer) : json :=
  JObj ([("id", JStr (server_id s));
         ("version", JStr (server_version s));
         ("path", JStr (server_path s));
         ("installedAt", JStr (installedAt s));
         ("updatedAt", JStr (updatedAt s))]
        ++ member "config" JObj (server_config s)).

(** ** The environment

    The services the installer is linked against:
    - [JSON_parse] gives [None] where [JSON.parse] raises a SyntaxError;
      [JSON_stringify v] is [JSON.stringify(v, null, 2)];
    - [child_process w command cwd] is what the command run in [cwd]
      leaves of the files of [w]: [inr] when it exits with status 0,
      [inl] with the message of the error when it does not (a command
      that fails may have written files before it failed);
    - [clock n] is the ISO string of the [n]-th reading of the time;
    - [getConfig] (src/config.ts) reads config.json under a try/catch
      and overlays it on DEFAULT_CONFIG: a total function of the files;
    - [cwd] is the working directory of the process. *)

Record environment : Type := {
  JSON_parse : string -> option json;
  JSON_stringify : json -> string;
  child_process : world -> string -> option path
                  -> string * gmap path node + gmap path node;
  clock : nat -> string;
  getConfig : gmap path node -> RegistryConfig;
  cwd : path
}.

Section Installer.

Variable E : environment.

Definition parse (text : string) : M json :=
  match JSON_parse E text with
  | Some v => ret v
  | None => throw SyntaxError
  end.

(** [execSync(command, { cwd, stdio: 'pipe' })] *)
Definition execSync (command : string) (dir : option path) : M unit :=
  fun w =>
    let w' := {| files := files w; spawned := spawned w ++ [(command, dir)]; ticks := ticks w |} in
    match child_process E w command dir with
    | inl (message, fs) => (Throw (ChildProcessError message), set_files fs w')
    | inr fs => (Ok tt, set_files fs w')
    end.

(** [new Date().toISOString()] *)
Definition now : M string :=
  fun w => (Ok (clock E (ticks w)),
            {| files := files w; spawned := spawned w; ticks := S (ticks w) |}).

(** A path given as a string, as [fs] resolves it. *)
Definition resolve (s : string) : path :=
  join (if is_absolute s then [] else cwd E) s.

(** ** src/config.ts *)

Fixpoint for_each {A} (l : list A) (body : A -> M unit) : M unit :=
  match l with
  | [] => ret tt
  | x :: rest => body x ;; for_each rest body
  end.

Definition ensureDirectories : M unit :=
  fun w =>
    let config := getConfig E (files w) in
    for_each [cacheDir config; config_installDir config]
      (fun dir =>
         let* present := existsSync dir in
         if negb present then mkdirSync dir else ret tt) w.

(** ** src/installer.ts *)

Definition INSTALLED_DB : string := "installed.json".

(** [installDir] is an absolute path in normal form, held by its
    segments; the string of the field is [path_to_string installDir]. *)
Record Installer : Type := { installDir : path }.

Definition new_Installer : M Installer :=
  fun w => (Ok {| installDir := config_installDir (getConfig E (files w)) |}, w).

Section Methods.

Variable this : Installer.

Definition listInstalled : M json :=
  let dbPath := join (installDir this) INSTALLED_DB in
  let* present := existsSync dbPath in
  if negb present then ret (JArr [])
  else
    try_catch
      (let* text := readFileSync dbPath in parse text)
      (fun _ => ret (JArr [])).

(** [installed.find(s => s.id === serverId)] on the elements of an array *)
Fixpoint find_id (serverId : string) (l : list json) : result jsval :=
  match l with
  | [] => Ok None
  | s :: rest =>
      match get (Some s) "id" with
      | Throw e => Throw e
      | Ok v => if strict_eq_string v serverId then Ok (Some s) else find_id serverId rest
      end
  end.

(** [installed.findIndex(s => s.id === server.id)]: [None] is [-1]. *)
Fixpoint findIndex_id (serverId : string) (l : list json) : result (option nat) :=
  match l with
  | [] => Ok None
  | s :: rest =>
      match get (Some s) "id" with
      | Throw e => Throw e
      | Ok v =>
          if strict_eq_string v serverId then Ok (Some 0)
          else match findIndex_id serverId rest with
               | Ok (Some i) => Ok (Some (S i))
               | r => r
               end
      end
  end.

(** [installed.filter(s => s.id !== serverId)] *)
Fixpoint filter_id (serverId : string) (l : list json) : result (list json) :=
  match l with
  | [] => Ok []
  | s :: rest =>
      match get (Some s) "id" with
      | Throw e => Throw e
      | Ok v =>
          match filter_id serverId rest with
          | Throw e => Throw e
          | Ok rest' => Ok (if strict_eq_string v serverId then rest' else s :: rest')
          end
      end
  end.

(** The methods [find], [findIndex] and [filter] exist on arrays only. *)
Definition as_array (v : json) : M (list json) :=
  match v with
  | JArr l => ret l
  | _ => throw TypeError
  end.

(** [found || null]: the result is [JNull] for [null]. *)
Definition or_null (found : jsval) : json :=
  match found with
  | Some v => if js_truthy v then v else JNull
  | None => JNull
  end.

Definition getInstalled (serverId : string) : M json :=
  let* installed := listInstalled in
  let* l := as_array installed in
  let* found := lift (find_id serverId l) in
  ret (or_null found).

Definition isInstalled (serverId : string) : M bool :=
  let* installed := getInstalled serverId in
  ret (match installed with JNull => false | _ => true end).

(** [path.join] accepts strings only. *)
Definition as_string (v : jsval) : M string :=
  match v with
  | Some (JStr s) => ret s
  | _ => throw TypeError
  end.

Definition getRunCommand (serverId : string) : M (option string) :=
  let* installed := getInstalled serverId in
  if negb (js_truthy installed) then ret None
  else
    let* installed_path := lift (get (Some installed) "path") in
    let* dir := as_string installed_path in
    let manifestPath := join (resolve dir) "manifest.json" in
    let* text := readFileSync manifestPath in
    let* manifest := parse text in
    let serverDir := dir in
    let* manifest_runtime := lift (get (Some manifest) "runtime") in
    let* runtime_type := lift (get manifest_runtime "type") in
    if strict_eq_string runtime_type "node" then
      let* e := lift (get manifest_runtime "entry") in
      let* e := as_string e in
      ret (Some ("node " +:+ path_join serverDir e))
    else if strict_eq_string runtime_type "python" then
      let* e := lift (get manifest_runtime "entry") in
      let* e := as_string e in
      ret (Some ("python " +:+ path_join serverDir e))
    else if strict_eq_string runtime_type "docker" then
      let* manifest_installation := lift (get (Some manifest) "installation") in
      let* image := lift (get manifest_installation "dockerImage") in
      ret (Some ("docker run " +:+ template image))
    else if strict_eq_string runtime_type "binary" then
      let* e := lift (get manifest_runtime "entry") in
      let* e := as_string e in
      ret (Some (path_join serverDir e))
    else ret None.

Definition NoInstallationMethod : exn :=
  Error "No installation method available for this server".

Definition UnsupportedStrategy : exn :=
  Error "Binary installation from GitHub not yet implemented".

Definition installNode (manifest : MCPServerManifest) (serverDir : path) : M unit :=
  match truthy (npmPackage (installation manifest)) with
  | Some package => execSync ("npm install " +:+ package) (Some serverDir)
  | None =>
      match truthy (githubRepo (installation manifest)) with
      | Some repo =>
          execSync ("git clone " +:+ repo +:+ " .") (Some serverDir) ;;
          execSync "npm install" (Some serverDir)
      | None => throw NoInstallationMethod
      end
  end.

Definition installPython (manifest : MCPServerManifest) (serverDir : path) : M unit :=
  match truthy (pypiPackage (installation manifest)) with
  | Some package => execSync ("pip install " +:+ package +:+ " -t .") (Some serverDir)
  | None =>
      match truthy (githubRepo (installation manifest)) with
      | Some repo =>
          execSync ("git clone " +:+ repo +:+ " .") (Some serverDir) ;;
          execSync "pip install -e ." (Some serverDir)
      | None => throw NoInstallationMethod
      end
  end.

Definition installDocker (manifest : MCPServerManifest) (serverDir : path) : M unit :=
  match truthy (dockerImage (installation manifest)) with
  | None => throw (Error "Docker image not specified")
  | Some image =>
      execSync ("docker pull " +:+ image) None ;;
      writeFileSync (join serverDir "docker-compose.yml")
        ("services:" +:+ nl +:+ "  " +:+ manifest_id manifest +:+ ":" +:+ nl
         +:+ "    image: " +:+ image +:+ nl)
  end.

Definition installBinary (manifest : MCPServerManifest) (serverDir : path) : M unit :=
  match truthy (githubRepo (installation manifest)) with
  | Some _ => throw UnsupportedStrategy
  | None => throw NoInstallationMethod
  end.

Definition addToInstalledDb (server : InstalledServer) : M unit :=
  let* installed := listInstalled in
  let* l := as_array installed in
  let* existing := lift (findIndex_id (server_id server) l) in
  let l' := match existing with
            | Some i => <[i := server_to_json server]> l
            | None => l ++ [server_to_json server]
            end in
  let dbPath := join (installDir this) INSTALLED_DB in
  writeFileSync dbPath (JSON_stringify E (JArr l')).

Definition removeFromInstalledDb (serverId : string) : M unit :=
  let* all := listInstalled in
  let* l := as_array all in
  let* installed := lift (filter_id serverId l) in
  let dbPath := join (installDir this) INSTALLED_DB in
  writeFileSync dbPath (JSON_stringify E (JArr installed)).

Definition AlreadyInstalled (id : string) : exn :=
  Error ("Server " +:+ id +:+ " is already installed. Use 'update' instead.").

Definition NotInstalled (id : string) : exn :=
  Error ("Server " +:+ id +:+ " is not installed.").

Definition NotInstalled_update (id : string) : exn :=
  Error ("Server " +:+ id +:+ " is not installed. Use 'install' first.").

Definition install (manifest : MCPServerManifest) : M InstalledServer :=
  ensureDirectories ;;
  let serverDir := join (installDir this) (manifest_id manifest) in
  let* present := existsSync serverDir in
  if present then throw (AlreadyInstalled (manifest_id manifest))
  else
    mkdirSync serverDir ;;
    match type (runtime manifest) with
    | node_runtime => installNode manifest serverDir
    | python_runtime => installPython manifest serverDir
    | docker_runtime => installDocker manifest serverDir
    | binary_runtime => installBinary manifest serverDir
    end ;;
    writeFileSync (join serverDir "manifest.json")
      (JSON_stringify E (manifest_to_json manifest)) ;;
    let* t1 := now in
    let* t2 := now in
    let installed := {| server_id := manifest_id manifest;
                        server_version := manifest_version manifest;
                        server_path :=
                          path_join (path_to_string (installDir this)) (manifest_id manifest);
                        installedAt := t1;
                        updatedAt := t2;
                        server_config := None |} in
    addToInstalledDb installed ;;
    ret installed.

Definition remove (serverId : string) : M unit :=
  let serverDir := join (installDir this) serverId in
  let* present := existsSync serverDir in
  if negb present then throw (NotInstalled serverId)
  else
    rmSync serverDir ;;
    removeFromInstalledDb serverId.

Definition update (manifest : MCPServerManifest) : M InstalledServer :=
  let serverDir := join (installDir this) (manifest_id manifest) in
  let* present := existsSync serverDir in
  if negb present then throw (NotInstalled_update (manifest_id manifest))
  else
    remove (manifest_id manifest) ;;
    install manifest.

End Methods.
End Installer.

(** ** Reading the ledger, as values

    [ledger E this fs] is the value [listInstalled] returns on the files
    [fs] (lemma [listInstalled_ledger]); [id_is x s] is the test
    [s.id === x] on an element that is not [null]. *)

Definition dbPath (this : Installer) : path := join (installDir this) INSTALLED_DB.

Definition ledger (E : environment) (this : Installer) (fs : gmap path node) : json :=
  match stat fs (dbPath this) with
  | Some (File text) =>
      match JSON_parse E text with
      | Some v => v
      | None => JArr []
      end
  | _ => JArr []
  end.

Definition id_is (x : string) (s : json) : bool :=
  match get (Some s) "id" with
  | Ok v => strict_eq_string v x
  | Throw _ => false
  end.

(** The records of id [x] among the elements of the ledger. *)
Definition records_of (x : string) (l : list json) : list json :=
  List.filter (id_is x) l.
Arguments records_of : simpl never.

(** The base directories of the configuration exist: [ensureDirectories]
    has nothing to create. *)
Definition base_directories (E : environment) (w : world) : Prop :=
  is_Some (stat (files w) (cacheDir (getConfig E (files w))))
  /\ is_Some (stat (files w) (config_installDir (getConfig E (files w)))).

(** Moreover the installer's own directory is a directory. *)
Definition ready (E : environment) (this : Installer) (w : world) : Prop :=
  stat (files w) (installDir this) = Some Dir /\ base_directories E w.

(** What the theorems ask of the environment: a document printed by
    [JSON.stringify] parses back to the value printed, and the commands
    run by [execSync] leave the ledger document alone, whether they
    succeed or fail. *)
Definition round_trip (E : environment) : Prop :=
  forall v, JSON_parse E (JSON_stringify E v) = Some v.

Definition files_left (outcome : string * gmap path node + gmap path node) : gmap path node :=
  match outcome with
  | inl (_, fs) => fs
  | inr fs => fs
  end.

Definition keeps_ledger (E : environment) (this : Installer) : Prop :=
  forall w command dir,
    files_left (child_process E w command dir) !! dbPath this = files w !! dbPath this.

(** The array [addToInstalledDb] writes: [existing] is the result of
    [findIndex]. *)
Definition upsert (existing : option nat) (s : json) (l : list json) : list json :=
  match existing with
  | Some i => <[i := s]> l
  | None => l ++ [s]
  end.

(** The [switch] of [install] over the runtime type. *)
Definition dispatch (E : environment) (manifest : MCPServerManifest) (serverDir : path) : M unit :=
  match type (runtime manifest) with
  | node_runtime => installNode E manifest serverDir
  | python_runtime => installPython E manifest serverDir
  | docker_runtime => installDocker E manifest serverDir
  | binary_runtime => installBinary manifest serverDir
  end.

(** The record [install] builds at the clock reading [t]. *)
Definition record_at (E : environment) (this : Installer) (manifest : MCPServerManifest) (t : nat)
  : InstalledServer :=
  {| server_id := manifest_id manifest;
     server_version := manifest_version manifest;
     server_path := path_join (path_to_string (installDir this)) (manifest_id manifest);
     installedAt := clock E t;
     updatedAt := clock E (S t);
     server_config := None |}.

(** [fs'] is [fs] with directories added where there was nothing. *)
Definition grows (fs fs' : gmap path node) : Prop :=
  forall p, fs' !! p = fs !! p \/ (fs !! p = None /\ fs' !! p = Some Dir).

(** The files left by [rmSync dir]. *)
Definition without (dir : path) (fs : gmap path node) : gmap path node :=
  filter (fun kv => ¬ dir `prefix_of` kv.1) fs.

(** An exception that is none of the three guards of [install],
    [remove] and [update]. *)
Definition not_a_guard (e : exn) : Prop :=
  forall x, e <> AlreadyInstalled x /\ e <> NotInstalled x /\ e <> NotInstalled_update x.

(** *** Sequences of operations *)





(** [id] is installed: its directory is there and the ledger has its record. *)
Definition installed_in (E : environment) (this : Installer) (id : string) (w : world) : Prop :=
  stat (files w) (join (installDir this) id) = Some Dir
  /\ isInstalled E this id w = (Ok true, w).

(** A path whose segments are all plain: the resolved form of an
    absolute path string. *)
Definition wf_path (p : list string) : Prop :=
  Forall (fun seg => plain_segment seg = true) p.

(** The command [getRunCommand] builds from a manifest kept under the
    path [dir] of its record. *)
Definition run_command (m : MCPServerManifest) (dir : string) : string :=
  match type (runtime m) with
  | node_runtime => "node " +:+ path_join dir (entry (runtime m))
  | python_runtime => "python " +:+ path_join dir (entry (runtime m))
  | docker_runtime => "docker run " +:+ template (JStr <$> dockerImage (installation m))
  | binary_runtime => path_join dir (entry (runtime m))
  end.

(** [v] is an array: the methods [find], [findIndex], [filter] exist. *)
Definition is_array (v : json) : bool :=
  match v with
  | JArr _ => true
  | _ => false
  end.

(** ** src/config.ts, on objects

    [getConfig] and [setConfig] themselves. The installer above takes
    the configuration through the [getConfig] of its environment, typed
    as RegistryConfig declares it; here the configuration is the object
    it is at run time: its own properties in enumeration order (array
    indices first, in ascending order, then the other keys in the order
    of their creation), with whatever values the configuration file
    gives them. [homedir] is [os.homedir()], resolved. *)

Module Config.

(** [k] as an array index: a canonical decimal numeral below 2^32 - 1. *)
Definition is_digit (c : ascii) : bool :=
  (48 <=? nat_of_ascii c)%nat && (nat_of_ascii c <=? 57)%nat.

Fixpoint digits_value (s : string) (acc : N) : option N :=
  match s with
  | EmptyString => Some acc
  | String c rest =>
      if is_digit c then digits_value rest (10 * acc + (N_of_ascii c - 48))%N
      else None
  end.

Definition array_index (k : string) : option N :=
  match k with
  | EmptyString => None
  | String c rest =>
      if Ascii.eqb c "0" then (if String.eqb rest "" then Some 0%N else None)
      else match digits_value k 0 with
           | Some n => if (n <=? 4294967294)%N then Some n else None
           | None => None
           end
  end.

Section Objects.

Context {A : Type}.

(** [obj[k]] on the own properties of an object. *)
Fixpoint own (k : string) (obj : list (string * A)) : option A :=
  match obj with
  | [] => None
  | (k', v) :: rest => if String.eqb k k' then Some v else own k rest
  end.

Fixpoint replace (k : string) (v : A) (obj : list (string * A)) : list (string * A) :=
  match obj with
  | [] => []
  | (k', v') :: rest =>
      if String.eqb k k' then (k', v) :: rest else (k', v') :: replace k v rest
  end.

Fixpoint insert_index (n : N) (k : string) (v : A) (obj : list (string * A))
  : list (string * A) :=
  match obj with
  | [] => [(k, v)]
  | (k', v') :: rest =>
      match array_index k' with
      | Some n' => if (n <? n')%N then (k, v) :: obj else (k', v') :: insert_index n k v rest
      | None => (k, v) :: obj
      end
  end.

(** CreateDataProperty: an existing key keeps its place, a new array
    index goes among the indices, any other new key goes last. *)
Definition define (k : string) (v : A) (obj : list (string * A)) : list (string * A) :=
  match own k obj with
  | Some _ => replace k v obj
  | None =>
      match array_index k with
      | Some n => insert_index n k v obj
      | None => obj ++ [(k, v)]
      end
  end.

(** Copying the properties of [source], in their order, onto [target]. *)
Definition assign (target source : list (string * A)) : list (string * A) :=
  fold_left (fun obj kv => define kv.1 kv.2 obj) source target.

(** [{ ...a, ...b }] *)
Definition spread (a b : list (string * A)) : list (string * A) :=
  assign (assign [] a) b.

End Objects.

(** The own enumerable properties of a value under a spread: those of
    an object, the elements of an array and the characters of a string
    under their indices, none for [null], a number or a boolean. *)
Definition index_key (i : nat) : string := string_of_Z (Z.of_nat i).

Fixpoint characters (i : nat) (s : string) : list (string * json) :=
  match s with
  | EmptyString => []
  | String c rest => (index_key i, JStr (String c "")) :: characters (S i) rest
  end.

Definition own_properties (v : json) : list (string * json) :=
  match v with
  | JObj fields => fields
  | JArr items => imap (fun i x => (index_key i, x)) items
  | JStr s => characters 0 s
  | JNull | JBool _ | JNum _ => []
  end.

(** The properties [JSON.stringify] prints: those that are not [undefined]. *)
Fixpoint defined (obj : list (string * jsval)) : list (string * json) :=
  match obj with
  | [] => []
  | (k, Some v) :: rest => (k, v) :: defined rest
  | (_, None) :: rest => defined rest
  end.

Section Config.

Variable E : environment.
Variable homedir : list string.

Definition DEFAULT_CONFIG : list (string * json) :=
  [("registryUrl", JStr "https://registry.mcp.dev");
   ("cacheDir", JStr (path_to_string (join (join homedir ".mcp-registry") "cache")));
   ("installDir", JStr (path_to_string (join (join homedir ".mcp-registry") "servers")));
   ("mcpConfigPath",
    JStr (path_to_string (join (join (join homedir ".config") "mcp") "settings.json")))].

Definition CONFIG_PATH : list string :=
  join (join homedir ".mcp-registry") "config.json".

Definition getConfig : M (list (string * json)) :=
  (let* present := existsSync CONFIG_PATH in
   if present then
     try_catch
       (let* text := readFileSync CONFIG_PATH in
        let* userConfig := parse E text in
        ret (spread DEFAULT_CONFIG (own_properties userConfig)))
       (fun _ => ret DEFAULT_CONFIG)
   else ret DEFAULT_CONFIG)%js.

Definition setConfig (updates : list (string * jsval)) : M unit :=
  (let* config := getConfig in
   let newConfig := spread (map (fun kv => (kv.1, Some kv.2)) config) updates in
   let configDir := join homedir ".mcp-registry" in
   let* present := existsSync configDir in
   (if negb present then mkdirSync configDir else ret tt) ;;
   writeFileSync CONFIG_PATH (JSON_stringify E (JObj (defined newConfig))))%js.

(** The value [getConfig] returns, as a function of the files. *)
Definition config_of (fs : gmap (list string) node) : list (string * json) :=
  match stat fs CONFIG_PATH with
  | Some (File text) =>
      match JSON_parse E text with
      | Some userConfig => spread DEFAULT_CONFIG (own_properties userConfig)
      | None => DEFAULT_CONFIG
      end
  | _ => DEFAULT_CONFIG
  end.

End Config.

End Config.

(** ** A concrete environment

    A text format for JSON documents that can be run, and the
    environment of tests/cli.test.ts: a fixed configuration and an
    [execSync] that does nothing. *)

Module Codec.

Fixpoint print_string (s : string) : string :=
  match s with
  | EmptyString => "."
  | String c s' => String ":" (String c (print_string s'))
  end.

Fixpoint read_string (s : string) : option (string * string) :=
  match s with
  | String m r =>
      if Ascii.eqb m "." then Some (EmptyString, r)
      else if Ascii.eqb m ":" then
        match r with
        | String c r' =>
            match read_string r' with
            | Some (x, rest) => Some (String c x, rest)
            | None => None
            end
        | EmptyString => None
        end
      else None
  | EmptyString => None
  end.

Fixpoint print_positive (p : positive) : string :=
  match p with
  | xH => "."
  | xO q => String "0" (print_positive q)
  | xI q => String "1" (print_positive q)
  end.

Fixpoint read_positive (s : string) : option (positive * string) :=
  match s with
  | String m r =>
      if Ascii.eqb m "." then Some (xH, r)
      else
        match read_positive r with
        | Some (q, rest) =>
            if Ascii.eqb m "0" then Some (xO q, rest)
            else if Ascii.eqb m "1" then Some (xI q, rest)
            else None
        | None => None
        end
  | EmptyString => None
  end.

Definition print_Z (z : Z) : string :=
  match z with
  | Z0 => "0"
  | Zpos p => String "+" (print_positive p)
  | Zneg p => String "-" (print_positive p)
  end.

Definition read_Z (s : string) : option (Z * string) :=
  match s with
  | String m r =>
      if Ascii.eqb m "0" then Some (Z0, r)
      else
        match read_positive r with
        | Some (p, rest) =>
            if Ascii.eqb m "+" then Some (Zpos p, rest)
            else if Ascii.eqb m "-" then Some (Zneg p, rest)
            else None
        | None => None
        end
  | EmptyString => None
  end.

Definition print_items (print : json -> string) : list json -> string :=
  fix go (l : list json) : string :=
    match l with
    | [] => "."
    | x :: rest => String ";" (print x +:+ go rest)
    end.

Definition print_fields (print : json -> string) : list (string * json) -> string :=
  fix go (l : list (string * json)) : string :=
    match l with
    | [] => "."
    | (k, x) :: rest => String ";" (print_string k +:+ print x +:+ go rest)
    end.

Fixpoint print (v : json) : string :=
  match v with
  | JNull => "n"
  | JBool true => "t"
  | JBool false => "f"
  | JNum z => String "i" (print_Z z)
  | JStr s => String "s" (print_string s)
  | JArr items => String "a" (print_items print items)
  | JObj fields => String "o" (print_fields print fields)
  end.

Fixpoint read (fuel : nat) (s : string) : option (json * string) :=
  match fuel, s with
  | S fuel', String m r =>
      if Ascii.eqb m "n" then Some (JNull, r)
      else if Ascii.eqb m "t" then Some (JBool true, r)
      else if Ascii.eqb m "f" then Some (JBool false, r)
      else if Ascii.eqb m "i" then
        match read_Z r with
        | Some (z, rest) => Some (JNum z, rest)
        | None => None
        end
      else if Ascii.eqb m "s" then
        match read_string r with
        | Some (x, rest) => Some (JStr x, rest)
        | None => None
        end
      else if Ascii.eqb m "a" then
        match read_items fuel' r with
        | Some (l, rest) => Some (JArr l, rest)
        | None => None
        end
      else if Ascii.eqb m "o" then
        match read_fields fuel' r with
        | Some (l, rest) => Some (JObj l, rest)
        | None => None
        end
      else None
  | _, _ => None
  end
with read_items (fuel : nat) (s : string) : option (list json * string) :=
  match fuel, s with
  | S fuel', String m r =>
      if Ascii.eqb m "." then Some ([], r)
      else if Ascii.eqb m ";" then
        match read fuel' r with
        | Some (x, r1) =>
            match read_items fuel' r1 with
            | Some (l, rest) => Some (x :: l, rest)
            | None => None
            end
        | None => None
        end
      else None
  | _, _ => None
  end
with read_fields (fuel : nat) (s : string) : option (list (string * json) * string) :=
  match fuel, s with
  | S fuel', String m r =>
      if Ascii.eqb m "." then Some ([], r)
      else if Ascii.eqb m ";" then
        match read_string r with
        | Some (k, r0) =>
            match read fuel' r0 with
            | Some (x, r1) =>
                match read_fields fuel' r1 with
                | Some (l, rest) => Some ((k, x) :: l, rest)
                | None => None
                end
            | None => None
            end
        | None => None
        end
      else None
  | _, _ => None
  end.

Definition stringify (v : json) : string := print v.

Definition parse (s : string) : option json :=
  match read (String.length s) s with
  | Some (v, EmptyString) => Some v
  | _ => None
  end.

(** [read] undoes [print], whatever follows the text printed. *)
Definition reads (v : json) : Prop :=
  forall fuel r, String.length (print v) <= fuel -> read fuel (print v +:+ r) = Some (v, r).

End Codec.

Module Mock.

Definition config : RegistryConfig :=
  {| registryUrl := "https://registry.test";
     cacheDir := ["tmp"; "cache"];
     config_installDir := ["tmp"; "servers"];
     mcpConfigPath := ["tmp"; "settings.json"] |}.

Definition services : environment :=
  {| JSON_parse := Codec.parse;
     JSON_stringify := Codec.stringify;
     child_process := fun w _ _ => inr (files w);
     clock := fun n => "t" +:+ string_of_Z (Z.of_nat n);
     getConfig := fun _ => config;
     cwd := [] |}.

Definition installer : Installer := {| installDir := ["tmp"; "servers"] |}.

Definition makeManifest (id version : string) : MCPServerManifest :=
  {| manifest_id := id;
     name := "Server " +:+ id;
     description := "Description for " +:+ id;
     manifest_version := version;
     author := {| author_name := "Test Author"; author_email := None; author_url := None |};
     repository := None;
     homepage := None;
     license := "MIT";
     keywords := ["test"; id];
     mcpVersion := "1.0";
     runtime := {| type := node_runtime; entry := "index.js"; env := None; envOptional := None |};
     installation := {| npmPackage := Some (id +:+ "-package"); pypiPackage := None;
                        dockerImage := None; githubRepo := None; command := None |};
     capabilities := [];
     stats := None |}.

(** The same manifest with another runtime type and other hints. *)
Definition with_strategy (t : runtime_type) (i : Installation) (m : MCPServerManifest)
  : MCPServerManifest :=
  {| manifest_id := manifest_id m; name := name m; description := description m;
     manifest_version := manifest_version m; author := author m;
     repository := repository m; homepage := homepage m; license := license m;
     keywords := keywords m; mcpVersion := mcpVersion m;
     runtime := {| type := t; entry := entry (runtime m); env := env (runtime m);
                   envOptional := envOptional (runtime m) |};
     installation := i; capabilities := capabilities m; stats := stats m |}.

(** The same manifest with another entry. *)
Definition with_entry (e : string) (m : MCPServerManifest) : MCPServerManifest :=
  {| manifest_id := manifest_id m; name := name m; description := description m;
     manifest_version := manifest_version m; author := author m;
     repository := repository m; homepage := homepage m; license := license m;
     keywords := keywords m; mcpVersion := mcpVersion m;
     runtime := {| type := type (runtime m); entry := e; env := env (runtime m);
                   envOptional := envOptional (runtime m) |};
     installation := installation m; capabilities := capabilities m; stats := stats m |}.

Definition no_hints : Installation :=
  {| npmPackage := None; pypiPackage := None; dockerImage := None;
     githubRepo := None; command := None |}.

(** The world after [mkdtempSync] and the mocked [ensureDirectories]. *)
Definition fresh : world :=
  {| files := {[ ["tmp"] := Dir; ["tmp"; "servers"] := Dir; ["tmp"; "cache"] := Dir ]};
     spawned := [];
     ticks := 0 |}.

(** The ledger document overwritten with text that is not JSON, and
    with a JSON document that is not an array. *)
Definition garbage : world :=
  set_files (<[ ["tmp"; "servers"; "installed.json"] := File "not json" ]> (files fresh)) fresh.

Definition not_an_array : json := JObj [("servers", JNum 1)].

Definition object_ledger : world :=
  set_files (<[ ["tmp"; "servers"; "installed.json"] := File (Codec.stringify not_an_array) ]>
               (files fresh)) fresh.



Definition record_only : world :=
  set_files
    (<[ ["tmp"; "servers"; "installed.json"] :=
          File (Codec.stringify
                  (JArr [JObj [("id", JStr "alpha"); ("version", JStr "0.9.0");
                               ("path", JStr "/tmp/servers/alpha");
                               ("installedAt", JStr "t0"); ("updatedAt", JStr "t1")]])) ]>
       (files fresh)) fresh.


(** A record whose path is relative to the working directory, beside
    its directory and manifest snapshot. *)
Definition relative_record : world :=
  set_files
    (<[ ["tmp"; "servers"; "installed.json"] :=
          File (Codec.stringify
                  (JArr [JObj [("id", JStr "alpha"); ("version", JStr "1.0.0");
                               ("path", JStr "tmp/servers/../servers/alpha");
                               ("installedAt", JStr "t0"); ("updatedAt", JStr "t1")]])) ]>
       (<[ ["tmp"; "servers"; "alpha"; "manifest.json"] :=
             File (Codec.stringify (manifest_to_json (makeManifest "alpha" "1.0.0"))) ]>
          (<[ ["tmp"; "servers"; "alpha"] := Dir ]> (files fresh)))) fresh.

(** The world after a successful [install] of [id]. *)
Definition after_install (id version : string) (w : world) : world :=
  (install services installer (makeManifest id version) w).2.

(** The same environment with every command failing, after it has
    left a log in its working directory. *)
Definition offline : environment :=
  {| JSON_parse := Codec.parse;
     JSON_stringify := Codec.stringify;
     child_process := fun w _ dir =>
       inl ("network unreachable",
            match dir with
            | Some d => <[d ++ ["debug.log"] := File "ENETUNREACH"]> (files w)
            | None => files w
            end);
     clock := clock services;
     getConfig := fun _ => config;
     cwd := [] |}.

(** A ledger that is not an array, beside the directory of a package. *)
Definition object_ledger_and_directory : world :=
  set_files (<[ ["tmp"; "servers"; "alpha"] := Dir ]> (files object_ledger)) fresh.

(** A record whose manifest snapshot is not JSON. *)
Definition corrupt_snapshot : world :=
  set_files
    (<[ ["tmp"; "servers"; "alpha"; "manifest.json"] := File "not json" ]>
       (<[ ["tmp"; "servers"; "alpha"] := Dir ]> (files record_only))) fresh.

(** Nothing but the root. *)
Definition empty_disk : world := {| files := ∅; spawned := []; ticks := 0 |}.

(** The home directory, and a configuration file that moves the
    installation directory and has a key of its own. *)
Definition home : list string := ["home"; "user"].

Definition user_config : list (string * json) :=
  [("installDir", JStr "/opt/servers"); ("theme", JStr "dark")].

Definition configured : world :=
  {| files := {[ ["home"] := Dir; ["home"; "user"] := Dir;
                 ["home"; "user"; ".mcp-registry"] := Dir;
                 ["home"; "user"; ".mcp-registry"; "config.json"] :=
                   File (Codec.stringify (JObj user_config)) ]};
     spawned := [];
     ticks := 0 |}.

(** A home directory without a configuration directory. *)
Definition unconfigured : world :=
  {| files := {[ ["home"] := Dir; ["home"; "user"] := Dir ]}; spawned := []; ticks := 0 |}.

End Mock.

(** * Facts *)

Lemma append_cons c a r : String c a +:+ r = String c (a +:+ r).
Proof. reflexivity. Qed.

Lemma append_empty_r s : s +:+ "" = s.
Proof. induction s as [|c s IH]; [reflexivity|]. rewrite append_cons. by rewrite IH. Qed.

Lemma append_assoc a b c : (a +:+ b) +:+ c = a +:+ (b +:+ c).
Proof. induction a as [|x a IH]; [reflexivity|]. rewrite !append_cons. by rewrite IH. Qed.

Lemma length_append a b : String.length (a +:+ b) = String.length a + String.length b.
Proof. induction a as [|x a IH]; [reflexivity|]. rewrite append_cons. simpl. by rewrite IH. Qed.

Module CodecFacts.
Import Codec.

Lemma read_print_string s r : read_string (print_string s +:+ r) = Some (s, r).
Proof.
  induction s as [|c s IH]; [reflexivity|].
  simpl print_string. rewrite !append_cons. simpl. by rewrite IH.
Qed.

Lemma read_print_positive p r : read_positive (print_positive p +:+ r) = Some (p, r).
Proof.
  induction p as [q IH|q IH|]; simpl print_positive; rewrite ?append_cons; simpl;
    [by rewrite IH..|reflexivity].
Qed.

Lemma read_print_Z z r : read_Z (print_Z z +:+ r) = Some (z, r).
Proof.
  destruct z as [|p|p]; simpl print_Z; rewrite ?append_cons; simpl;
    [reflexivity|by rewrite read_print_positive..].
Qed.

Lemma read_print_items items :
  Forall reads items ->
  forall fuel r, String.length (print_items print items) <= fuel ->
    read_items fuel (print_items print items +:+ r) = Some (items, r).
Proof.
  induction 1 as [|x rest Hx _ IH]; intros fuel r Hfuel.
  - destruct fuel as [|fuel]; [simpl in Hfuel; lia|reflexivity].
  - simpl print_items in *. rewrite append_cons, append_assoc.
    destruct fuel as [|fuel]; [simpl in Hfuel; lia|].
    simpl in Hfuel. rewrite length_append in Hfuel.
    simpl. rewrite Hx by lia. by rewrite IH by lia.
Qed.

Lemma read_print_fields fields :
  Forall (fun kv => reads kv.2) fields ->
  forall fuel r, String.length (print_fields print fields) <= fuel ->
    read_fields fuel (print_fields print fields +:+ r) = Some (fields, r).
Proof.
  induction 1 as [|[k x] rest Hx _ IH]; intros fuel r Hfuel.
  - destruct fuel as [|fuel]; [simpl in Hfuel; lia|reflexivity].
  - simpl print_fields in *. rewrite append_cons, !append_assoc.
    destruct fuel as [|fuel]; [simpl in Hfuel; lia|].
    simpl in Hfuel. rewrite !length_append in Hfuel.
    simpl. rewrite read_print_string. simpl in Hx.
    rewrite Hx by lia. by rewrite IH by lia.
Qed.

Lemma read_print v : reads v.
Proof.
  induction v as [|b|z|s|items IH|fields IH] using json_ind; intros fuel r Hfuel;
    (destruct fuel as [|fuel]; [try destruct b; simpl in Hfuel; lia|]).
  - reflexivity.
  - by destruct b.
  - simpl print. rewrite append_cons. simpl. by rewrite read_print_Z.
  - simpl print. rewrite append_cons. simpl. by rewrite read_print_string.
  - simpl print in *. rewrite append_cons. simpl in Hfuel. simpl.
    by rewrite read_print_items by (done || lia).
  - simpl print in *. rewrite append_cons. simpl in Hfuel. simpl.
    by rewrite read_print_fields by (done || lia).
Qed.

Lemma parse_stringify v : parse (stringify v) = Some v.
Proof.
  unfold parse, stringify.
  rewrite <- (append_empty_r (print v)) at 2.
  by rewrite read_print.
Qed.

End CodecFacts.

(** ** Paths *)

Lemma join_manifest p : join p "manifest.json" = p ++ ["manifest.json"].
Proof. reflexivity. Qed.

Lemma join_compose p : join p "docker-compose.yml" = p ++ ["docker-compose.yml"].
Proof. reflexivity. Qed.

Lemma dbPath_snoc this : dbPath this = installDir this ++ ["installed.json"].
Proof. reflexivity. Qed.

Lemma segments_nonempty s : segments s <> [].
Proof.
  destruct s as [|c s]; simpl; [done|].
  destruct (Ascii.eqb c "/"); [done|]. by destruct (segments s).
Qed.

Lemma join_plain p s : plain_segment s = true -> join p s = p ++ [s].
Proof.
  unfold plain_segment, join. destruct (segments s) as [|seg [|]] eqn:Hs; try done.
  intros Hplain. simpl. unfold enter.
  destruct (String.eqb seg "") eqn:H1; [done|].
  destruct (String.eqb seg ".") eqn:H2; [done|].
  destruct (String.eqb seg "..") eqn:H3; [done|].
  f_equal. f_equal. clear -Hs.
  revert seg Hs. induction s as [|c s IH]; intros seg Hs; simpl in Hs.
  - by injection Hs as <-.
  - destruct (Ascii.eqb c "/").
    { injection Hs as _ Hs. by destruct (segments_nonempty s). }
    destruct (segments s) as [|seg' rest] eqn:Hs'; [by destruct (segments_nonempty s)|].
    injection Hs as <- ->. by rewrite (IH seg').
Qed.

Lemma stat_snoc fs (p : path) s : stat fs (p ++ [s]) = fs !! (p ++ [s]).
Proof. by destruct p. Qed.

Lemma removelast_snoc (p : path) s : removelast (p ++ [s]) = p.
Proof. by rewrite removelast_app, app_nil_r. Qed.

Lemma snoc_ne_self (p : path) s : p ++ [s] <> p.
Proof. intros H. apply (f_equal length) in H. rewrite length_app in H. simpl in H. lia. Qed.

(** ** The monad *)

Lemma bind_Ok {A B} (c : M A) (k : A -> M B) w b w' :
  bind c k w = (Ok b, w') ->
  exists a w1, c w = (Ok a, w1) /\ k a w1 = (Ok b, w').
Proof. unfold bind. destruct (c w) as [[a|e] w1]; [eauto|done]. Qed.

Lemma bind_Throw {A B} (c : M A) (k : A -> M B) w e w' :
  bind c k w = (Throw e, w') ->
  c w = (Throw e, w') \/ exists a w1, c w = (Ok a, w1) /\ k a w1 = (Throw e, w').
Proof.
  unfold bind. destruct (c w) as [[a|e1] w1]; [eauto|].
  intros [= <- <-]. by left.
Qed.

Lemma bind_run {A B} (c : M A) (k : A -> M B) w a w1 :
  c w = (Ok a, w1) -> bind c k w = k a w1.
Proof. unfold bind. by intros ->. Qed.

Lemma bind_fail {A B} (c : M A) (k : A -> M B) w e w1 :
  c w = (Throw e, w1) -> bind c k w = (Throw e, w1).
Proof. unfold bind. by intros ->. Qed.

(** ** [listInstalled] *)

Section Facts.

Variable E : environment.
Variable this : Installer.

Lemma existsSync_run p w :
  existsSync p w = (Ok (bool_decide (is_Some (stat (files w) p))), w).
Proof. reflexivity. Qed.

Lemma listInstalled_ledger w :
  listInstalled E this w = (Ok (ledger E this (files w)), w).
Proof.
  unfold listInstalled, ledger. fold (dbPath this).
  rewrite (bind_run _ _ _ _ _ (existsSync_run _ _)).
  unfold try_catch, bind, readFileSync, parse.
  destruct (stat (files w) (dbPath this)) as [[|text]|] eqn:Hstat.
  - rewrite bool_decide_true by eauto. simpl. by rewrite Hstat.
  - rewrite bool_decide_true by eauto. simpl. rewrite Hstat.
    unfold ret, throw. by destruct (JSON_parse E text).
  - rewrite bool_decide_false; [done|]. by intros [? ?].
Qed.

(** ** Directories are only ever added by [mkdirSync] *)

Lemma grows_refl fs : grows fs fs.
Proof. intros p. by left. Qed.

Lemma grows_trans fs1 fs2 fs3 : grows fs1 fs2 -> grows fs2 fs3 -> grows fs1 fs3.
Proof.
  intros H12 H23 p. destruct (H12 p) as [H1|[H1 H1']], (H23 p) as [H2|[H2 H2']].
  - left. congruence.
  - right. split; congruence.
  - right. split; congruence.
  - congruence.
Qed.

Lemma grows_stat fs fs' p x : grows fs fs' -> stat fs p = Some x -> stat fs' p = Some x.
Proof.
  intros Hg. destruct p as [|s p]; [done|]. simpl.
  destruct (Hg (s :: p)) as [->|[-> _]]; done.
Qed.

Lemma grows_file fs fs' p text :
  grows fs fs' -> fs' !! p = Some (File text) -> fs !! p = Some (File text).
Proof. intros Hg. destruct (Hg p) as [->|[_ ->]]; done. Qed.

Lemma mkdirp_grows leaf rp fs fs' : mkdirp leaf rp fs = inr fs' -> grows fs fs'.
Proof.
  revert leaf fs'. induction rp as [|s rp IH]; intros leaf fs' Hm; simpl in Hm.
  - injection Hm as <-. apply grows_refl.
  - destruct (stat fs (rev rp ++ [s])) as [[|text]|] eqn:Hstat.
    + injection Hm as <-. apply grows_refl.
    + done.
    + destruct (mkdirp false rp fs) as [e|fs1] eqn:Hrec; [done|].
      injection Hm as <-. rewrite stat_snoc in Hstat.
      intros p. destruct (decide (p = rev rp ++ [s])) as [->|Hne].
      * right. by rewrite lookup_insert_eq.
      * rewrite lookup_insert_ne by done. by apply (IH false).
Qed.

Lemma mkdirSync_grows p w r w' :
  mkdirSync p w = (r, w') ->
  grows (files w) (files w') /\ spawned w' = spawned w /\ ticks w' = ticks w.
Proof.
  unfold mkdirSync. destruct (mkdirp true (rev p) (files w)) as [e|fs] eqn:Hm.
  - intros [= <- <-]. split; [apply grows_refl|done].
  - intros [= <- <-]. split; [by eapply mkdirp_grows|done].
Qed.

Lemma mkdirSync_child p s w :
  stat (files w) p = Some Dir ->
  stat (files w) (p ++ [s]) = None ->
  mkdirSync (p ++ [s]) w = (Ok tt, set_files (<[p ++ [s] := Dir]> (files w)) w).
Proof.
  intros Hp Hc. unfold mkdirSync. rewrite rev_app_distr. simpl.
  rewrite rev_involutive, Hc.
  destruct (rev p) as [|s' rp] eqn:Hrev.
  - simpl. apply (f_equal (@rev string)) in Hrev. rewrite rev_involutive in Hrev.
    by subst p.
  - assert (mkdirp false (s' :: rp) (files w) = inr (files w)) as ->; [|done].
    simpl. rewrite <- (rev_involutive p), Hrev in Hp. simpl in Hp. by rewrite Hp.
Qed.

Lemma ensure_step dir w r w' :
  bind (existsSync dir) (fun present => if negb present then mkdirSync dir else ret tt) w = (r, w') ->
  grows (files w) (files w') /\ spawned w' = spawned w /\ ticks w' = ticks w.
Proof.
  rewrite (bind_run _ _ _ _ _ (existsSync_run _ _)).
  destruct (bool_decide _); simpl.
  - intros [= <- <-]. split; [apply grows_refl|done].
  - apply mkdirSync_grows.
Qed.

Lemma ensureDirectories_grows w r w' :
  ensureDirectories E w = (r, w') ->
  grows (files w) (files w') /\ spawned w' = spawned w /\ ticks w' = ticks w.
Proof.
  unfold ensureDirectories. simpl. set (config := getConfig E (files w)).
  unfold bind at 1.
  destruct (bind (existsSync (cacheDir config)) _ w) as [[[]|e] w1] eqn:H1.
  - apply ensure_step in H1 as (Hg1 & Hs1 & Ht1).
    unfold bind at 1.
    destruct (bind (existsSync (config_installDir config)) _ w1) as [[[]|e] w2] eqn:H2;
      apply ensure_step in H2 as (Hg2 & Hs2 & Ht2);
      intros [= <- <-]; (split; [by eapply grows_trans|split; congruence]).
  - apply ensure_step in H1 as (Hg1 & Hs1 & Ht1). by intros [= <- <-].
Qed.

Lemma ensureDirectories_base w : base_directories E w -> ensureDirectories E w = (Ok tt, w).
Proof.
  intros (Hc & Hi). unfold ensureDirectories. simpl.
  unfold bind, existsSync.
  rewrite (bool_decide_true _ Hc). simpl. by rewrite (bool_decide_true _ Hi).
Qed.

Lemma ensureDirectories_ready w : ready E this w -> ensureDirectories E w = (Ok tt, w).
Proof. intros (_ & Hbase). by apply ensureDirectories_base. Qed.

(** ** [execSync] and the clock *)

Lemma execSync_run command dir w :
  exists r fs,
    execSync E command dir w
    = (r, {| files := fs; spawned := spawned w ++ [(command, dir)]; ticks := ticks w |}).
Proof.
  unfold execSync. destruct (child_process E w command dir) as [[message fs]|fs]; eauto.
Qed.

Lemma execSync_Ok command dir w w' :
  execSync E command dir w = (Ok tt, w') ->
  child_process E w command dir = inr (files w') /\ ticks w' = ticks w.
Proof.
  unfold execSync. destruct (child_process E w command dir) as [[message fs]|fs]; [done|].
  by intros [= <-].
Qed.

Lemma now_run w :
  now E w = (Ok (clock E (ticks w)),
             {| files := files w; spawned := spawned w; ticks := S (ticks w) |}).
Proof. reflexivity. Qed.

(** ** [writeFileSync] *)

Lemma writeFileSync_Ok p data w w' :
  writeFileSync p data w = (Ok tt, w') ->
  stat (files w) p <> Some Dir
  /\ stat (files w) (removelast p) = Some Dir
  /\ w' = set_files (<[p := File data]> (files w)) w.
Proof.
  unfold writeFileSync.
  destruct (stat (files w) p) as [[|text]|] eqn:Hp; [done|..];
    (destruct (stat (files w) (removelast p)) as [[|text']|] eqn:Hd; [|done..]);
    by intros [= <-].
Qed.

Lemma writeFileSync_result p data w r w' :
  writeFileSync p data w = (r, w') ->
  spawned w' = spawned w /\ ticks w' = ticks w.
Proof.
  unfold writeFileSync.
  destruct (stat (files w) p) as [[|text]|];
    try destruct (stat (files w) (removelast p)) as [[|text']|];
    by intros [= <- <-].
Qed.

(** ** The strategies *)

Lemma keeps_ledger_inr w command dir fs :
  keeps_ledger E this ->
  child_process E w command dir = inr fs ->
  fs !! dbPath this = files w !! dbPath this.
Proof. intros Hkeep Hc. specialize (Hkeep w command dir). by rewrite Hc in Hkeep. Qed.

Lemma dispatch_Ok m (dir : path) w w' :
  keeps_ledger E this ->
  dispatch E m dir w = (Ok tt, w') ->
  files w' !! dbPath this = files w !! dbPath this /\ ticks w' = ticks w.
Proof.
  intros Hkeep. unfold dispatch, installNode, installPython, installDocker, installBinary.
  destruct (type (runtime m)).
  - destruct (truthy (npmPackage _)) as [package|].
    { intros (Hc & Ht)%execSync_Ok. by rewrite <- (keeps_ledger_inr _ _ _ _ Hkeep Hc). }
    destruct (truthy (githubRepo _)) as [repo|]; [|done].
    intros ([] & w1 & (Hc1 & Ht1)%execSync_Ok & (Hc2 & Ht2)%execSync_Ok)%bind_Ok.
    rewrite <- (keeps_ledger_inr _ _ _ _ Hkeep Hc1), <- (keeps_ledger_inr _ _ _ _ Hkeep Hc2). split; congruence.
  - destruct (truthy (pypiPackage _)) as [package|].
    { intros (Hc & Ht)%execSync_Ok. by rewrite <- (keeps_ledger_inr _ _ _ _ Hkeep Hc). }
    destruct (truthy (githubRepo _)) as [repo|]; [|done].
    intros ([] & w1 & (Hc1 & Ht1)%execSync_Ok & (Hc2 & Ht2)%execSync_Ok)%bind_Ok.
    rewrite <- (keeps_ledger_inr _ _ _ _ Hkeep Hc1), <- (keeps_ledger_inr _ _ _ _ Hkeep Hc2). split; congruence.
  - destruct (truthy (dockerImage _)) as [image|]; [|done].
    intros ([] & w1 & (Hc1 & Ht1)%execSync_Ok & Hw)%bind_Ok.
    pose proof (writeFileSync_result _ _ _ _ _ Hw) as [_ Ht2].
    apply writeFileSync_Ok in Hw as (_ & _ & ->). simpl.
    rewrite join_compose, dbPath_snoc, lookup_insert_ne.
    + rewrite <- dbPath_snoc, <- (keeps_ledger_inr _ _ _ _ Hkeep Hc1). split; [done|]. simpl in Ht2. congruence.
    + intros Heq. apply (f_equal (@rev string)) in Heq.
      rewrite !rev_app_distr in Heq. simpl in Heq. by injection Heq.
  - by destruct (truthy (githubRepo _)).
Qed.

(** Without a hint for the node runtime, and always for the binary
    runtime, the strategy throws at once. *)
Lemma dispatch_node_no_hint m dir w :
  type (runtime m) = node_runtime ->
  truthy (npmPackage (installation m)) = None ->
  truthy (githubRepo (installation m)) = None ->
  dispatch E m dir w = (Throw NoInstallationMethod, w).
Proof. unfold dispatch, installNode. by intros -> -> ->. Qed.

Lemma dispatch_binary m dir w :
  type (runtime m) = binary_runtime ->
  dispatch E m dir w
  = (Throw (match truthy (githubRepo (installation m)) with
            | Some _ => UnsupportedStrategy
            | None => NoInstallationMethod
            end), w).
Proof.
  unfold dispatch, installBinary. intros ->.
  by destruct (truthy (githubRepo (installation m))).
Qed.

(** ** [install], step by step *)

Lemma install_unfold m w :
  install E this m w
  = bind (ensureDirectories E)
      (fun _ =>
         let serverDir := join (installDir this) (manifest_id m) in
         bind (existsSync serverDir)
           (fun present =>
              if present then throw (AlreadyInstalled (manifest_id m))
              else
                bind (mkdirSync serverDir)
                  (fun _ =>
                     bind (dispatch E m serverDir)
                       (fun _ =>
                          bind (writeFileSync (join serverDir "manifest.json")
                                  (JSON_stringify E (manifest_to_json m)))
                            (fun _ =>
                               bind (now E)
                                 (fun t1 =>
                                    bind (now E)
                                      (fun t2 =>
                                         let installed :=
                                           {| server_id := manifest_id m;
                                              server_version := manifest_version m;
                                              server_path :=
                                                path_join (path_to_string (installDir this))
                                                  (manifest_id m);
                                              installedAt := t1;
                                              updatedAt := t2;
                                              server_config := None |} in
                                         bind (addToInstalledDb E this installed)
                                           (fun _ => ret installed)))))))) w.
Proof. reflexivity. Qed.

(** ** The records of one id under [findIndex], [filter] and the upsert *)

Lemma id_is_server x r : id_is x (server_to_json r) = String.eqb (server_id r) x.
Proof. reflexivity. Qed.

Lemma id_is_other x y s : id_is x s = true -> y <> x -> id_is y s = false.
Proof.
  unfold id_is. destruct (get (Some s) "id") as [[[| | |s'| |]|]|]; simpl; try done.
  intros ->%String.eqb_eq Hne. apply String.eqb_neq. congruence.
Qed.

Lemma records_of_cons x s l :
  records_of x (s :: l) = if id_is x s then s :: records_of x l else records_of x l.
Proof. reflexivity. Qed.




Lemma records_of_filter_id x l l' : filter_id x l = Ok l' -> records_of x l' = [].
Proof.
  revert l'. induction l as [|s l IH]; intros l' Hf; simpl in Hf.
  - by injection Hf as <-.
  - destruct (get (Some s) "id") as [v|e] eqn:Hget; [|done].
    destruct (filter_id x l) as [rest|e]; [|done].
    injection Hf as <-. destruct (strict_eq_string v x) eqn:Hv; [by apply IH|].
    rewrite records_of_cons. unfold id_is. rewrite Hget, Hv. by apply IH.
Qed.

Lemma records_of_filter_id_other x y l l' :
  filter_id x l = Ok l' -> y <> x -> records_of y l' = records_of y l.
Proof.
  intros Hf Hne. revert l' Hf. induction l as [|s l IH]; intros l' Hf; simpl in Hf.
  - by injection Hf as <-.
  - destruct (get (Some s) "id") as [v|e] eqn:Hget; [|done].
    destruct (filter_id x l) as [rest|e]; [|done].
    injection Hf as <-. rewrite records_of_cons.
    destruct (strict_eq_string v x) eqn:Hv.
    + assert (id_is x s = true) as Hs by (unfold id_is; by rewrite Hget).
      rewrite (id_is_other _ _ _ Hs Hne). by apply IH.
    + rewrite records_of_cons. by rewrite IH.
Qed.

(** ** The two writers of the ledger *)

Lemma ledger_same fs fs' :
  fs' !! dbPath this = fs !! dbPath this -> ledger E this fs' = ledger E this fs.
Proof. unfold ledger. rewrite dbPath_snoc, !stat_snoc. by intros ->. Qed.

Lemma ledger_written fs v :
  round_trip E ->
  ledger E this (<[dbPath this := File (JSON_stringify E v)]> fs) = v.
Proof.
  intros Hrt. unfold ledger. rewrite dbPath_snoc, stat_snoc, lookup_insert_eq.
  by rewrite Hrt.
Qed.

Lemma addToInstalledDb_Ok server w w' :
  addToInstalledDb E this server w = (Ok tt, w') ->
  exists l existing,
    ledger E this (files w) = JArr l
    /\ findIndex_id (server_id server) l = Ok existing
    /\ stat (files w) (dbPath this) <> Some Dir
    /\ w' = set_files
              (<[dbPath this := File (JSON_stringify E (JArr (upsert existing (server_to_json server) l)))]>
                 (files w)) w.
Proof.
  unfold addToInstalledDb. rewrite (bind_run _ _ _ _ _ (listInstalled_ledger w)).
  destruct (ledger E this (files w)) as [| | | |l|]; try done.
  unfold as_array. rewrite (bind_run _ _ _ l w eq_refl).
  unfold lift at 1, bind at 1.
  destruct (findIndex_id (server_id server) l) as [existing|e] eqn:Hfind; [|done].
  intros (Hnd & _ & ->)%writeFileSync_Ok. by exists l, existing.
Qed.

Lemma removeFromInstalledDb_Ok serverId w w' :
  removeFromInstalledDb E this serverId w = (Ok tt, w') ->
  exists l l',
    ledger E this (files w) = JArr l
    /\ filter_id serverId l = Ok l'
    /\ stat (files w) (removelast (dbPath this)) = Some Dir
    /\ w' = set_files (<[dbPath this := File (JSON_stringify E (JArr l'))]> (files w)) w.
Proof.
  unfold removeFromInstalledDb. rewrite (bind_run _ _ _ _ _ (listInstalled_ledger w)).
  destruct (ledger E this (files w)) as [| | | |l|]; try done.
  unfold as_array. rewrite (bind_run _ _ _ l w eq_refl).
  unfold lift at 1, bind at 1.
  destruct (filter_id serverId l) as [l'|e] eqn:Hfilter; [|done].
  intros (_ & Hparent & ->)%writeFileSync_Ok. by exists l, l'.
Qed.

Lemma stat_insert_ne fs (p q : path) x : p <> q -> stat (<[p := x]> fs) q = stat fs q.
Proof. intros Hne. destruct q; [done|]. simpl. by rewrite lookup_insert_ne. Qed.

Lemma manifest_not_ledger (dir : path) : dir ++ ["manifest.json"] <> dbPath this.
Proof.
  rewrite dbPath_snoc. intros Heq. apply (f_equal (@rev string)) in Heq.
  rewrite !rev_app_distr in Heq. simpl in Heq. by injection Heq.
Qed.

(** ** A successful [install] *)

Lemma install_Ok m w r w' :
  keeps_ledger E this ->
  install E this m w = (Ok r, w') ->
  let serverDir := join (installDir this) (manifest_id m) in
  r = record_at E this m (ticks w)
  /\ ticks w' = S (S (ticks w))
  /\ stat (files w) serverDir = None
  /\ stat (files w') serverDir = Some Dir
  /\ files w' !! (serverDir ++ ["manifest.json"])
     = Some (File (JSON_stringify E (manifest_to_json m)))
  /\ exists l existing,
       ledger E this (files w) = JArr l
       /\ findIndex_id (manifest_id m) l = Ok existing
       /\ files w' !! dbPath this
          = Some (File (JSON_stringify E (JArr (upsert existing (server_to_json r) l)))).
Proof.
  intros Hkeep. rewrite install_unfold. intros H serverDir.
  apply bind_Ok in H as ([] & w1 & Hens & H).
  apply ensureDirectories_grows in Hens as (Hg1 & _ & Ht1).
  cbv zeta in H. fold serverDir in H.
  rewrite (bind_run _ _ _ _ _ (existsSync_run _ _)) in H.
  case_bool_decide as Hex; [done|].
  apply bind_Ok in H as ([] & w2 & Hmk & H).
  apply mkdirSync_grows in Hmk as (Hg2 & _ & Ht2).
  apply bind_Ok in H as ([] & w3 & Hdis & H).
  apply (dispatch_Ok _ _ _ _ Hkeep) in Hdis as (Hdb3 & Ht3).
  apply bind_Ok in H as ([] & w4 & Hwr & H).
  apply writeFileSync_Ok in Hwr as (_ & Hdir & ->).
  rewrite join_manifest, removelast_snoc in Hdir.
  rewrite !(bind_run _ _ _ _ _ (now_run _)) in H. simpl in H.
  apply bind_Ok in H as ([] & w7 & Hadd & H).
  injection H as <- <-.
  apply addToInstalledDb_Ok in Hadd as (l & existing & Hl & Hfind & Hnd & ->).
  simpl in *. rewrite join_manifest in *.
  assert (serverDir <> dbPath this) as Hne.
  { intros Heq. apply Hnd. rewrite <- Heq.
    rewrite stat_insert_ne by apply snoc_ne_self. done. }
  pose proof (grows_trans _ _ _ Hg1 Hg2) as Hg.
  assert (files w3 !! dbPath this = files w !! dbPath this) as Hdb.
  { rewrite Hdb3. destruct (Hg (dbPath this)) as [->|[_ Hd]]; [done|].
    destruct Hnd. rewrite stat_insert_ne by apply manifest_not_ledger.
    rewrite dbPath_snoc, stat_snoc, <- dbPath_snoc. congruence. }
  split; [unfold record_at; by rewrite <- Ht1, <- Ht2, <- Ht3|].
  split; [congruence|].
  split.
  { destruct (stat (files w) serverDir) as [x|] eqn:Hs; [|done].
    destruct Hex. rewrite (grows_stat _ _ _ _ Hg1 Hs). eauto. }
  split.
  { rewrite stat_insert_ne by done. by rewrite stat_insert_ne by apply snoc_ne_self. }
  split.
  { rewrite lookup_insert_ne by (by apply not_eq_sym, manifest_not_ledger).
    by rewrite lookup_insert_eq. }
  exists l, existing. split; [|split; [done|by rewrite lookup_insert_eq]].
  rewrite <- Hl. symmetry. apply ledger_same.
  rewrite lookup_insert_ne by apply manifest_not_ledger. done.
Qed.

(** ** The exceptions *)


Lemma not_a_guard_TypeError : not_a_guard TypeError.
Proof. by intros x. Qed.

Lemma not_a_guard_SystemError c : not_a_guard (SystemError c).
Proof. by intros x. Qed.





Lemma writeFileSync_Throw p data w e w' :
  writeFileSync p data w = (Throw e, w') -> not_a_guard e /\ w' = w.
Proof.
  unfold writeFileSync.
  destruct (stat (files w) p) as [[|text]|];
    try destruct (stat (files w) (removelast p)) as [[|text']|];
    intros [= <- <-]; (split; [apply not_a_guard_SystemError|done]).
Qed.



Lemma findIndex_id_Throw x l e : findIndex_id x l = Throw e -> e = TypeError.
Proof.
  induction l as [|s l IH]; simpl; [done|].
  destruct (get (Some s) "id") as [v|e'] eqn:Hget.
  - destruct (strict_eq_string v x); [done|].
    destruct (findIndex_id x l) as [[i|]|e']; [done..|]. intros [= <-]. by apply IH.
  - intros [= <-]. unfold get in Hget. destruct s; congruence.
Qed.


Lemma addToInstalledDb_Throw server w e w' :
  addToInstalledDb E this server w = (Throw e, w') -> not_a_guard e /\ w' = w.
Proof.
  unfold addToInstalledDb. rewrite (bind_run _ _ _ _ _ (listInstalled_ledger w)).
  destruct (ledger E this (files w)) as [| | | |l|];
    try (intros [= <- <-]; split; [apply not_a_guard_TypeError|done]).
  unfold as_array. rewrite (bind_run _ _ _ l w eq_refl).
  unfold lift at 1, bind at 1.
  destruct (findIndex_id (server_id server) l) as [existing|e'] eqn:Hf.
  - apply writeFileSync_Throw.
  - intros [= <- <-]. apply findIndex_id_Throw in Hf as ->.
    split; [apply not_a_guard_TypeError|done].
Qed.




(** ** A failing [install] *)

Lemma install_present m w w1 :
  ensureDirectories E w = (Ok tt, w1) ->
  is_Some (stat (files w1) (join (installDir this) (manifest_id m))) ->
  install E this m w = (Throw (AlreadyInstalled (manifest_id m)), w1).
Proof.
  intros Hens Hex. rewrite install_unfold, (bind_run _ _ _ _ _ Hens).
  cbv zeta. rewrite (bind_run _ _ _ _ _ (existsSync_run _ _)).
  by rewrite bool_decide_true.
Qed.

Lemma install_absent m w w1 :
  ensureDirectories E w = (Ok tt, w1) ->
  ~ is_Some (stat (files w1) (join (installDir this) (manifest_id m))) ->
  install E this m w
  = bind (mkdirSync (join (installDir this) (manifest_id m)))
      (fun _ =>
         bind (dispatch E m (join (installDir this) (manifest_id m)))
           (fun _ =>
              bind (writeFileSync (join (join (installDir this) (manifest_id m)) "manifest.json")
                      (JSON_stringify E (manifest_to_json m)))
                (fun _ =>
                   bind (now E)
                     (fun t1 =>
                        bind (now E)
                          (fun t2 =>
                             let installed :=
                               {| server_id := manifest_id m;
                                  server_version := manifest_version m;
                                  server_path :=
                                    path_join (path_to_string (installDir this))
                                      (manifest_id m);
                                  installedAt := t1;
                                  updatedAt := t2;
                                  server_config := None |} in
                             bind (addToInstalledDb E this installed)
                               (fun _ => ret installed)))))) w1.
Proof.
  intros Hens Hex. rewrite install_unfold, (bind_run _ _ _ _ _ Hens).
  cbv zeta. rewrite (bind_run _ _ _ _ _ (existsSync_run _ _)).
  by rewrite bool_decide_false.
Qed.



(** A strategy that throws at once: [install] fails, and no command
    has been run. *)
Lemma install_dispatch_throws m w e0 :
  (forall dir w2, dispatch E m dir w2 = (Throw e0, w2)) ->
  exists e w',
    install E this m w = (Throw e, w')
    /\ spawned w' = spawned w
    /\ (ready E this w ->
        plain_segment (manifest_id m) = true ->
        stat (files w) (join (installDir this) (manifest_id m)) = None ->
        e = e0).
Proof.
  intros Hdis. destruct (ensureDirectories E w) as [[[]|e1] w1] eqn:Hens.
  - pose proof (ensureDirectories_grows _ _ _ Hens) as (_ & Hs1 & _).
    destruct (decide (is_Some (stat (files w1) (join (installDir this) (manifest_id m)))))
      as [Hex|Hex].
    + exists (AlreadyInstalled (manifest_id m)), w1.
      split; [by apply install_present|]. split; [done|].
      intros Hready _ Habs. rewrite (ensureDirectories_ready _ Hready) in Hens.
      injection Hens as <-. rewrite Habs in Hex. by destruct Hex.
    + rewrite (install_absent _ _ _ Hens Hex).
      destruct (mkdirSync (join (installDir this) (manifest_id m)) w1) as [[[]|e2] w2] eqn:Hmk.
      * pose proof (mkdirSync_grows _ _ _ _ Hmk) as (_ & Hs2 & _).
        exists e0, w2. rewrite (bind_run _ _ _ _ _ Hmk), (bind_fail _ _ _ _ _ (Hdis _ _)).
        split; [done|]. split; [congruence|done].
      * pose proof (mkdirSync_grows _ _ _ _ Hmk) as (_ & Hs2 & _).
        exists e2, w2. rewrite (bind_fail _ _ _ _ _ Hmk).
        split; [done|]. split; [congruence|].
        intros Hready Hplain Habs. rewrite (ensureDirectories_ready _ Hready) in Hens.
        injection Hens as <-. destruct Hready as (Hdir & _).
        rewrite (join_plain _ _ Hplain) in *.
        by rewrite (mkdirSync_child _ _ _ Hdir Habs) in Hmk.
  - pose proof (ensureDirectories_grows _ _ _ Hens) as (_ & Hs1 & _).
    exists e1, w1. rewrite install_unfold, (bind_fail _ _ _ _ _ Hens).
    split; [done|]. split; [done|].
    intros Hready _ _. by rewrite (ensureDirectories_ready _ Hready) in Hens.
Qed.

(** ** [remove] and [update] *)

Lemma without_prefix (dir p : path) fs : dir `prefix_of` p -> without dir fs !! p = None.
Proof.
  intros Hpre. unfold without. apply map_lookup_filter_None. right.
  intros x _ Hnot. by apply Hnot.
Qed.

Lemma without_other (dir p : path) fs : ~ dir `prefix_of` p -> without dir fs !! p = fs !! p.
Proof.
  intros Hpre. unfold without. destruct (fs !! p) as [x|] eqn:Hp.
  - by apply map_lookup_filter_Some.
  - apply map_lookup_filter_None. by left.
Qed.

Lemma rmSync_run dir w : rmSync dir w = (Ok tt, set_files (without dir (files w)) w).
Proof. reflexivity. Qed.

Lemma remove_absent serverId w :
  stat (files w) (join (installDir this) serverId) = None ->
  remove E this serverId w = (Throw (NotInstalled serverId), w).
Proof.
  intros Habs. unfold remove. rewrite (bind_run _ _ _ _ _ (existsSync_run _ _)), Habs.
  rewrite bool_decide_false; [done|]. by intros [? ?].
Qed.

Lemma remove_present serverId w :
  is_Some (stat (files w) (join (installDir this) serverId)) ->
  remove E this serverId w
  = removeFromInstalledDb E this serverId
      (set_files (without (join (installDir this) serverId) (files w)) w).
Proof.
  intros Hex. unfold remove. rewrite (bind_run _ _ _ _ _ (existsSync_run _ _)).
  rewrite bool_decide_true by done. simpl.
  by rewrite (bind_run _ _ _ _ _ (rmSync_run _ _)).
Qed.

Lemma remove_Ok serverId w w' :
  remove E this serverId w = (Ok tt, w') ->
  let serverDir := join (installDir this) serverId in
  is_Some (stat (files w) serverDir)
  /\ exists l l',
       ledger E this (without serverDir (files w)) = JArr l
       /\ filter_id serverId l = Ok l'
       /\ stat (without serverDir (files w)) (installDir this) = Some Dir
       /\ w' = set_files
                 (<[dbPath this := File (JSON_stringify E (JArr l'))]>
                    (without serverDir (files w))) w.
Proof.
  intros H serverDir.
  destruct (decide (is_Some (stat (files w) serverDir))) as [Hex|Hex].
  - split; [done|]. rewrite (remove_present _ _ Hex) in H.
    apply removeFromInstalledDb_Ok in H as (l & l' & Hl & Hf & Hparent & ->).
    rewrite dbPath_snoc, removelast_snoc in Hparent. by exists l, l'.
  - rewrite remove_absent in H; [done|].
    destruct (stat (files w) serverDir) eqn:Hs; [|done]. destruct Hex. eauto.
Qed.


Lemma update_absent m w :
  stat (files w) (join (installDir this) (manifest_id m)) = None ->
  update E this m w = (Throw (NotInstalled_update (manifest_id m)), w).
Proof.
  intros Habs. unfold update. rewrite (bind_run _ _ _ _ _ (existsSync_run _ _)), Habs.
  rewrite bool_decide_false; [done|]. by intros [? ?].
Qed.

Lemma update_present m w :
  is_Some (stat (files w) (join (installDir this) (manifest_id m))) ->
  update E this m w
  = bind (remove E this (manifest_id m)) (fun _ => install E this m) w.
Proof.
  intros Hex. unfold update. rewrite (bind_run _ _ _ _ _ (existsSync_run _ _)).
  by rewrite bool_decide_true.
Qed.

Lemma update_Ok m w r w' :
  update E this m w = (Ok r, w') ->
  exists w1, remove E this (manifest_id m) w = (Ok tt, w1)
             /\ install E this m w1 = (Ok r, w').
Proof.
  destruct (stat (files w) (join (installDir this) (manifest_id m))) as [x|] eqn:Hs.
  - rewrite update_present by (rewrite Hs; eauto).
    intros ([] & w1 & ? & ?)%bind_Ok. eauto.
  - by rewrite (update_absent _ _ Hs).
Qed.

(** The ledger read back after a write. *)
Lemma ledger_lookup fs v :
  round_trip E ->
  fs !! dbPath this = Some (File (JSON_stringify E v)) ->
  ledger E this fs = v.
Proof.
  intros Hrt Hfs. unfold ledger. rewrite dbPath_snoc, stat_snoc, <- dbPath_snoc, Hfs.
  by rewrite Hrt.
Qed.

Lemma remove_ledger serverId w w' :
  round_trip E ->
  remove E this serverId w = (Ok tt, w') ->
  exists l l',
    ledger E this (without (join (installDir this) serverId) (files w)) = JArr l
    /\ filter_id serverId l = Ok l'
    /\ ledger E this (files w') = JArr l'.
Proof.
  intros Hrt (_ & l & l' & Hl & Hf & _ & ->)%remove_Ok.
  exists l, l'. split; [done|]. split; [done|]. simpl. by apply ledger_written.
Qed.

Lemma install_ledger m w r w' :
  round_trip E ->
  keeps_ledger E this ->
  install E this m w = (Ok r, w') ->
  exists l existing,
    ledger E this (files w) = JArr l
    /\ findIndex_id (manifest_id m) l = Ok existing
    /\ ledger E this (files w') = JArr (upsert existing (server_to_json r) l)
    /\ server_id r = manifest_id m.
Proof.
  intros Hrt Hkeep H.
  apply (install_Ok _ _ _ _ Hkeep) in H as (-> & _ & _ & _ & _ & l & existing & Hl & Hf & Hdb).
  exists l, existing. split; [done|]. split; [done|]. split; [|done].
  by apply ledger_lookup.
Qed.

(** ** The queries *)

Lemma getInstalled_run serverId w :
  getInstalled E this serverId w
  = (match ledger E this (files w) with
     | JArr l =>
         match find_id serverId l with
         | Ok found => Ok (or_null found)
         | Throw e => Throw e
         end
     | _ => Throw TypeError
     end, w).
Proof.
  unfold getInstalled. rewrite (bind_run _ _ _ _ _ (listInstalled_ledger w)).
  destruct (ledger E this (files w)) as [| | | |l|]; try done.
  unfold as_array. rewrite (bind_run _ _ _ l w eq_refl).
  unfold lift, bind. by destruct (find_id serverId l).
Qed.

Lemma isInstalled_run serverId w :
  isInstalled E this serverId w
  = (match (getInstalled E this serverId w).1 with
     | Ok JNull => Ok false
     | Ok _ => Ok true
     | Throw e => Throw e
     end, w).
Proof.
  unfold isInstalled, bind. rewrite getInstalled_run. simpl.
  destruct (ledger E this (files w)) as [| | | |l|]; try done.
  destruct (find_id serverId l) as [found|]; [|done]. by destruct (or_null found).
Qed.

Lemma getRunCommand_null serverId w :
  (getInstalled E this serverId w).1 = Ok JNull ->
  getRunCommand E this serverId w = (Ok None, w).
Proof.
  unfold getRunCommand, bind. rewrite getInstalled_run. simpl.
  destruct (ledger E this (files w)) as [| | | |l|]; try done.
  destruct (find_id serverId l) as [found|]; [|done]. by intros [= ->].
Qed.

Lemma isInstalled_true_file serverId w :
  isInstalled E this serverId w = (Ok true, w) ->
  exists text, stat (files w) (dbPath this) = Some (File text).
Proof.
  rewrite isInstalled_run, getInstalled_run. simpl. unfold ledger.
  destruct (stat (files w) (dbPath this)) as [[|text]|]; [done|eauto|done].
Qed.

(** ** The invariant of the ledger *)








(** ** Which state each decision reads *)





End Facts.

(** * The scenarios of tests/cli.test.ts and of the specification, run *)

Example join_normalises : join ["a"; "b"] "../c//d/./e/" = ["a"; "c"; "d"; "e"].
Proof. reflexivity. Qed.

Example path_join_normalises :
  path_join "/tmp/servers" "alpha" = "/tmp/servers/alpha"
  /\ path_join "/tmp/servers" "alpha/" = "/tmp/servers/alpha/"
  /\ path_join "/tmp//servers/" "./alpha" = "/tmp/servers/alpha"
  /\ path_join "/tmp/servers" "../../.." = "/"
  /\ path_join "/tmp/servers" "../../" = "/"
  /\ path_join "/tmp/servers" "" = "/tmp/servers"
  /\ path_join "servers" "alpha/index.js" = "servers/alpha/index.js"
  /\ path_join "servers" "../../x/" = "../x/"
  /\ path_join "../a" "../../b" = "../../b"
  /\ path_join "./a" "./b" = "a/b"
  /\ path_join "a" ".." = "."
  /\ path_join "a/" "../" = "./"
  /\ path_join "" "" = ".".
Proof. repeat split; by vm_compute. Qed.

Example install_alpha_record :
  (install Mock.services Mock.installer (Mock.makeManifest "alpha" "1.0.0") Mock.fresh).1
  = Ok {| server_id := "alpha"; server_version := "1.0.0";
          server_path := "/tmp/servers/alpha";
          installedAt := "t0"; updatedAt := "t1"; server_config := None |}.
Proof. by vm_compute. Qed.

Example install_alpha_runs_npm :
  spawned (Mock.after_install "alpha" "1.0.0" Mock.fresh)
  = [("npm install alpha-package", Some ["tmp"; "servers"; "alpha"])].
Proof. by vm_compute. Qed.

Example install_alpha_run_command :
  (getRunCommand Mock.services Mock.installer "alpha"
     (Mock.after_install "alpha" "1.0.0" Mock.fresh)).1
  = Ok (Some "node /tmp/servers/alpha/index.js").
Proof. by vm_compute. Qed.

(** The separator that ends an id or an entry is kept, and a record
    whose path is relative gives a relative command. *)
Example install_keeps_trailing_separator :
  (install Mock.services Mock.installer (Mock.makeManifest "alpha/" "1.0.0") Mock.fresh).1
  = Ok {| server_id := "alpha/"; server_version := "1.0.0";
          server_path := "/tmp/servers/alpha/";
          installedAt := "t0"; updatedAt := "t1"; server_config := None |}.
Proof. by vm_compute. Qed.

Example run_command_keeps_trailing_separator :
  (getRunCommand Mock.services Mock.installer "alpha"
     (install Mock.services Mock.installer
        (Mock.with_entry "dist/" (Mock.makeManifest "alpha" "1.0.0")) Mock.fresh).2).1
  = Ok (Some "node /tmp/servers/alpha/dist/").
Proof. by vm_compute. Qed.

Example run_command_of_relative_record :
  (getRunCommand Mock.services Mock.installer "alpha" Mock.relative_record).1
  = Ok (Some "node tmp/servers/alpha/index.js").
Proof. by vm_compute. Qed.

Example remove_gamma_empties_ledger :
  (listInstalled Mock.services Mock.installer
     (remove Mock.services Mock.installer "gamma"
        (Mock.after_install "gamma" "2.0.0" Mock.fresh)).2).1
  = Ok (JArr []).
Proof. by vm_compute. Qed.

Example install_container_pulls_image :
  spawned
    (install Mock.services Mock.installer
       (Mock.with_strategy docker_runtime
          {| npmPackage := None; pypiPackage := None; dockerImage := Some "example/img:1";
             githubRepo := None; command := None |}
          (Mock.makeManifest "box" "1.0.0"))
       Mock.fresh).2
  = [("docker pull example/img:1", None)].
Proof. by vm_compute. Qed.

(** An id that names the ledger document is not an installed id: its
    "directory" is the document, [remove] deletes it and writes it again. *)
Example remove_ledger_name :
  (remove Mock.services Mock.installer "installed.json"
     (Mock.after_install "gamma" "2.0.0" Mock.fresh)).1 = Ok tt
  /\ (existsSync ["tmp"; "servers"; "installed.json"]
        (remove Mock.services Mock.installer "installed.json"
           (Mock.after_install "gamma" "2.0.0" Mock.fresh)).2).1 = Ok true.
Proof. split; by vm_compute. Qed.

(** ** Path strings *)

Lemma segments_cons c s :
  segments (String c s)
  = if Ascii.eqb c "/" then "" :: segments s
    else match segments s with
         | seg :: rest => String c seg :: rest
         | [] => [String c ""]
         end.
Proof. reflexivity. Qed.

Lemma segments_single s seg : segments s = [seg] -> seg = s.
Proof.
  revert seg. induction s as [|c s IH]; intros seg; simpl.
  - by intros [= <-].
  - destruct (Ascii.eqb c "/").
    { intros [= _ Hs]. by destruct (segments_nonempty s). }
    destruct (segments s) as [|seg' rest] eqn:Hs; [by destruct (segments_nonempty s)|].
    intros [= <- ->]. by rewrite (IH seg').
Qed.

Lemma plain_segment_single s : plain_segment s = true -> segments s = [s].
Proof.
  unfold plain_segment. destruct (segments s) as [|seg [|]] eqn:Hs; try done.
  intros _. by rewrite (segments_single _ _ Hs).
Qed.

Lemma enter_plain p s : plain_segment s = true -> enter p s = p ++ [s].
Proof.
  intros Hplain. pose proof (join_plain p s Hplain) as Hjoin.
  unfold join in Hjoin. by rewrite (plain_segment_single _ Hplain) in Hjoin.
Qed.

Lemma segments_append_slash a t :
  segments a = [a] -> segments (a +:+ String "/" t) = a :: segments t.
Proof.
  revert t. induction a as [|c a IH]; intros t Ha.
  - reflexivity.
  - rewrite append_cons, segments_cons. rewrite segments_cons in Ha.
    destruct (Ascii.eqb c "/"); [by injection Ha|].
    destruct (segments a) as [|seg rest] eqn:Hsa; [by destruct (segments_nonempty a)|].
    injection Ha as -> ->. by rewrite IH.
Qed.

Lemma path_to_string_cons seg p :
  path_to_string (seg :: p)
  = String "/" (match p with [] => seg | _ => seg +:+ path_to_string p end).
Proof. by destruct p. Qed.

Lemma segments_path_to_string p :
  wf_path p -> p <> [] -> segments (path_to_string p) = "" :: p.
Proof.
  induction 1 as [|seg p Hseg Hp IH]; [done|]. intros _.
  rewrite path_to_string_cons, segments_cons. simpl.
  destruct p as [|seg' p'].
  - by rewrite (plain_segment_single _ Hseg).
  - rewrite path_to_string_cons. rewrite path_to_string_cons in IH.
    rewrite (segments_append_slash _ _ (plain_segment_single _ Hseg)).
    rewrite segments_cons in IH. simpl in IH.
    specialize (IH ltac:(done)). by injection IH as ->.
Qed.

Lemma fold_enter_plain (p q : list string) :
  wf_path q -> fold_left enter q p = p ++ q.
Proof.
  intros Hq. revert p. induction Hq as [|seg q Hseg _ IH]; intros p; simpl.
  - by rewrite app_nil_r.
  - rewrite (enter_plain _ _ Hseg), IH. by rewrite <- app_assoc.
Qed.

(** A resolved path printed and resolved again is itself. *)
Lemma resolve_path_to_string E p : wf_path p -> resolve E (path_to_string p) = p.
Proof.
  intros Hp. unfold resolve, join. destruct p as [|seg p]; [reflexivity|].
  rewrite (segments_path_to_string _ Hp) by done.
  assert (is_absolute (path_to_string (seg :: p)) = true) as ->
    by (by rewrite path_to_string_cons).
  change (fold_left enter ("" :: seg :: p) []) with (fold_left enter (seg :: p) []).
  by rewrite (fold_enter_plain [] _ Hp).
Qed.

Lemma segments_no_slash s seg : seg ∈ segments s -> segments seg = [seg].
Proof.
  revert seg. induction s as [|c s IH]; intros seg Hin.
  - apply list_elem_of_singleton in Hin. by subst.
  - rewrite segments_cons in Hin. destruct (Ascii.eqb c "/") eqn:Hc.
    + apply elem_of_cons in Hin as [->|Hin]; [done|]. by apply IH.
    + destruct (segments s) as [|seg' rest] eqn:Hs; [by destruct (segments_nonempty s)|].
      apply elem_of_cons in Hin as [->|Hin].
      * rewrite segments_cons, Hc. rewrite (IH seg'); [done|]. by left.
      * apply IH. by right.
Qed.

Lemma segments_plain s seg :
  seg ∈ segments s -> seg <> "" -> seg <> "." -> seg <> ".." -> plain_segment seg = true.
Proof.
  intros Hin H1 H2 H3. unfold plain_segment. rewrite (segments_no_slash _ _ Hin).
  apply String.eqb_neq in H1, H2, H3. by rewrite H1, H2, H3.
Qed.

Lemma wf_path_removelast p : wf_path p -> wf_path (removelast p).
Proof.
  intros Hp. destruct (decide (p = [])) as [->|Hne]; [done|].
  unfold wf_path in Hp. rewrite (app_removelast_last "" Hne) in Hp.
  by apply Forall_app in Hp as [? _].
Qed.

Lemma wf_path_fold p l s :
  (forall seg, seg ∈ l -> seg ∈ segments s) -> wf_path p -> wf_path (fold_left enter l p).
Proof.
  revert p. induction l as [|seg l IH]; intros p Hall Hp; simpl; [done|].
  apply IH; [intros x Hx; apply Hall; by right|].
  unfold enter.
  destruct (String.eqb seg "") eqn:H1; [done|].
  destruct (String.eqb seg ".") eqn:H2; [done|].
  destruct (String.eqb seg "..") eqn:H3; [by apply wf_path_removelast|].
  apply String.eqb_neq in H1, H2, H3.
  apply Forall_app. split; [done|]. apply Forall_singleton.
  apply (segments_plain s); [apply Hall; by left|done..].
Qed.

Lemma wf_path_join p s : wf_path p -> wf_path (join p s).
Proof. unfold join. by apply (wf_path_fold _ _ s). Qed.

(** *** The string [path.join] returns is found where [join] goes *)

Lemma segments_app_separator a b :
  segments (a +:+ String "/" b) = segments a ++ segments b.
Proof.
  induction a as [|c a IH]; [reflexivity|].
  rewrite append_cons, !segments_cons, IH.
  destruct (Ascii.eqb c "/"); [reflexivity|].
  by destruct (segments a) as [|seg rest] eqn:Hs; [destruct (segments_nonempty a)|].
Qed.

Lemma join_app_separator p a b : join p (a +:+ String "/" b) = join (join p a) b.
Proof. unfold join. by rewrite segments_app_separator, fold_left_app. Qed.

Lemma join_empty p : join p "" = p.
Proof. reflexivity. Qed.

Lemma is_absolute_path_to_string p t : is_absolute (path_to_string p +:+ t) = true.
Proof. destruct p as [|seg p]; [reflexivity|]. by rewrite path_to_string_cons. Qed.

Lemma resolve_absolute E s : is_absolute s = true -> resolve E s = join [] s.
Proof. unfold resolve. by intros ->. Qed.

Lemma resolve_trailing E q t :
  wf_path q -> t = "" \/ t = "/" -> resolve E (path_to_string q +:+ t) = q.
Proof.
  intros Hq [->| ->].
  - rewrite append_empty_r. by apply resolve_path_to_string.
  - pose proof (is_absolute_path_to_string q "") as Habs. rewrite append_empty_r in Habs.
    rewrite (resolve_absolute E _ (is_absolute_path_to_string q _)).
    rewrite join_app_separator, join_empty, <- (resolve_absolute E _ Habs).
    by apply resolve_path_to_string.
Qed.

Lemma normalize_absolute s :
  is_absolute s = true ->
  exists t, (t = "" \/ t = "/") /\ normalize s = path_to_string (join [] s) +:+ t.
Proof.
  intros Habs. unfold normalize. rewrite Habs.
  destruct s as [|c s]; [done|]. change (String.eqb (String c s) "") with false. cbv iota zeta.
  fold (join [] (String c s)).
  destruct (join [] (String c s)) as [|seg q] eqn:Hj.
  - exists "". split; [by left|]. rewrite append_empty_r. reflexivity.
  - destruct (ends_with_separator (String c s)).
    + exists "/". split; [by right|reflexivity].
    + exists "". split; [by left|reflexivity].
Qed.

Lemma resolve_normalize E s : is_absolute s = true -> resolve E (normalize s) = resolve E s.
Proof.
  intros Habs. destruct (normalize_absolute s Habs) as (t & Ht & ->).
  rewrite (resolve_absolute E s Habs).
  apply resolve_trailing; [|done]. apply wf_path_join. constructor.
Qed.

Lemma resolve_path_join E dir name :
  wf_path dir -> resolve E (path_join (path_to_string dir) name) = join dir name.
Proof.
  intros Hdir. unfold path_join.
  assert (String.eqb (path_to_string dir) "" = false) as ->
    by (destruct dir as [|seg dir]; [reflexivity|by rewrite path_to_string_cons]).
  pose proof (is_absolute_path_to_string dir "") as Habs. rewrite append_empty_r in Habs.
  destruct (String.eqb name "") eqn:Hname.
  - apply String.eqb_eq in Hname as ->.
    by rewrite (resolve_normalize E _ Habs), join_empty, resolve_path_to_string.
  - change ("/" +:+ name) with (String "/" name).
    rewrite (resolve_normalize E _ (is_absolute_path_to_string dir _)).
    rewrite (resolve_absolute E _ (is_absolute_path_to_string dir _)).
    rewrite join_app_separator, <- (resolve_absolute E _ Habs).
    by rewrite resolve_path_to_string.
Qed.

(** * The properties of the specification *)

(** ** The concrete environment satisfies what the theorems ask *)

Lemma mock_round_trip : round_trip Mock.services.
Proof. intros v. apply CodecFacts.parse_stringify. Qed.

Lemma mock_keeps_ledger : keeps_ledger Mock.services Mock.installer.
Proof. by intros w command dir. Qed.

Lemma mock_fresh_ledger l :
  listInstalled Mock.services Mock.installer Mock.fresh = (Ok (JArr l), Mock.fresh) -> l = [].
Proof. rewrite listInstalled_ledger. vm_compute. by intros [= <-]. Qed.




(** C2. When the target directory installDir/id exists, [install]
    fails with AlreadyInstalled as soon as [ensureDirectories] has
    returned. Nothing that existed is altered: every path keeps its
    node, no file is added or rewritten (the directory's files and the
    ledger document are as before), and with the base directories of
    the configuration in place the world is left exactly as it was. *)
Theorem no_double_install (E : environment) (this : Installer)
    (m : MCPServerManifest) (w w1 : world) :
  is_Some (stat (files w) (join (installDir this) (manifest_id m))) ->
  ensureDirectories E w = (Ok tt, w1) ->
  install E this m w = (Throw (AlreadyInstalled (manifest_id m)), w1)
  /\ (forall p x, files w !! p = Some x -> files w1 !! p = Some x)
  /\ (forall p text, files w1 !! p = Some (File text) -> files w !! p = Some (File text))
  /\ (base_directories E w -> w1 = w).
Proof.
  intros [x Hex] Hens.
  pose proof (ensureDirectories_grows _ _ _ _ Hens) as (Hg & _ & _).
  split.
  { apply install_present; [done|]. rewrite (grows_stat _ _ _ _ Hg Hex). eauto. }
  split.
  { intros p y Hp. destruct (Hg p) as [->|[Hnone _]]; congruence. }
  split.
  { intros p text. by apply grows_file. }
  intros Hbase. rewrite (ensureDirectories_base _ _ Hbase) in Hens. by injection Hens.
Qed.

Lemma no_double_install_witness :
  install Mock.services Mock.installer (Mock.makeManifest "delta" "1.0.0")
    (Mock.after_install "delta" "1.0.0" Mock.fresh)
  = (Throw (Error "Server delta is already installed. Use 'update' instead."),
     Mock.after_install "delta" "1.0.0" Mock.fresh).
Proof.
  refine (proj1 (no_double_install Mock.services Mock.installer
                   (Mock.makeManifest "delta" "1.0.0") _ _ _ _)).
  - vm_compute. eauto.
  - vm_compute. reflexivity.
Defined.



(** C4. For an installed, plain id, after a successful [remove] the
    directory installDir/id is gone, the ledger has no record of the
    id, and a second [remove] fails with NotInstalled. *)
Theorem remove_clears_both (E : environment) (this : Installer)
    (id : string) (w w' : world) :
  round_trip E ->
  plain_segment id = true ->
  installed_in E this id w ->
  remove E this id w = (Ok tt, w') ->
  stat (files w') (join (installDir this) id) = None
  /\ (exists l, listInstalled E this w' = (Ok (JArr l), w') /\ records_of id l = [])
  /\ remove E this id w' = (Throw (NotInstalled id), w').
Proof.
  intros Hrt Hplain (Hdir & Hled) Hrm.
  apply (isInstalled_true_file E this) in Hled as (text & Hfile).
  pose proof (remove_ledger _ _ _ _ _ Hrt Hrm) as (l0 & l' & _ & Hf & Hl').
  apply remove_Ok in Hrm as (_ & la & lb & _ & _ & _ & ->). simpl in *.
  assert (stat (<[dbPath this := File (JSON_stringify E (JArr lb))]>
                  (without (join (installDir this) id) (files w)))
               (join (installDir this) id) = None) as Hgone.
  { rewrite stat_insert_ne by congruence.
    rewrite (join_plain _ _ Hplain), stat_snoc. by apply without_prefix. }
  split; [done|]. split.
  - exists l'. rewrite listInstalled_ledger. split; [by rewrite <- Hl'|].
    by apply (records_of_filter_id _ _ _ Hf).
  - by apply remove_absent.
Qed.

Lemma remove_clears_both_witness :
  stat (files (remove Mock.services Mock.installer "gamma"
                 (Mock.after_install "gamma" "2.0.0" Mock.fresh)).2)
    ["tmp"; "servers"; "gamma"]
  = None.
Proof.
  refine (proj1 (remove_clears_both Mock.services Mock.installer "gamma"
                   (Mock.after_install "gamma" "2.0.0" Mock.fresh) _
                   mock_round_trip eq_refl _ _)).
  - split; vm_compute; reflexivity.
  - vm_compute. reflexivity.
Defined.

(** C5. [listInstalled] never fails: it returns a value and leaves the
    world as it is; it returns the empty array when the ledger document
    is absent, and also when the document is there but does not parse. *)
Theorem listInstalled_never_fails (E : environment) (this : Installer) (w : world) :
  (exists v, listInstalled E this w = (Ok v, w))
  /\ (stat (files w) (join (installDir this) INSTALLED_DB) = None ->
      listInstalled E this w = (Ok (JArr []), w))
  /\ (forall text,
        stat (files w) (join (installDir this) INSTALLED_DB) = Some (File text) ->
        JSON_parse E text = None ->
        listInstalled E this w = (Ok (JArr []), w)).
Proof.
  rewrite listInstalled_ledger. split; [eauto|]. unfold ledger, dbPath.
  split; [by intros ->|]. by intros text -> ->.
Qed.

Lemma listInstalled_never_fails_witness :
  listInstalled Mock.services Mock.installer Mock.garbage = (Ok (JArr []), Mock.garbage).
Proof.
  apply (proj2 (proj2 (listInstalled_never_fails Mock.services Mock.installer Mock.garbage))
           "not json"); reflexivity.
Defined.

(** C6. A manifest of the node runtime with neither an npm package nor
    a GitHub repository: [install] fails and no command has been run;
    in a world that is ready for an install of a fresh, plain id, the
    failure is NoInstallationMethod. *)
Theorem missing_hint_failure (E : environment) (this : Installer)
    (m : MCPServerManifest) (w : world) :
  type (runtime m) = node_runtime ->
  npmPackage (installation m) = None ->
  githubRepo (installation m) = None ->
  exists e w',
    install E this m w = (Throw e, w')
    /\ spawned w' = spawned w
    /\ (ready E this w ->
        plain_segment (manifest_id m) = true ->
        stat (files w) (join (installDir this) (manifest_id m)) = None ->
        e = NoInstallationMethod).
Proof.
  intros Htype Hnpm Hrepo. apply install_dispatch_throws.
  intros dir w2. apply dispatch_node_no_hint; [done|by rewrite Hnpm|by rewrite Hrepo].
Qed.

Lemma missing_hint_failure_witness :
  exists w',
    install Mock.services Mock.installer
      (Mock.with_strategy node_runtime Mock.no_hints (Mock.makeManifest "alpha" "1.0.0"))
      Mock.fresh
    = (Throw NoInstallationMethod, w')
    /\ spawned w' = [].
Proof.
  destruct (missing_hint_failure Mock.services Mock.installer
              (Mock.with_strategy node_runtime Mock.no_hints (Mock.makeManifest "alpha" "1.0.0"))
              Mock.fresh eq_refl eq_refl eq_refl) as (e & w' & Hrun & Hspawned & He).
  exists w'. rewrite Hrun, He; [done| |reflexivity|reflexivity].
  split; [reflexivity|]. split; vm_compute; eauto.
Defined.

(** C7, as the code has it. A manifest of the binary runtime: [install]
    fails and no command has been run; in a world that is ready for an
    install of a fresh, plain id, the failure is UnsupportedStrategy
    when the manifest has a GitHub repository, and NoInstallationMethod
    when it has none. *)
Theorem binary_always_fails (E : environment) (this : Installer)
    (m : MCPServerManifest) (w : world) :
  type (runtime m) = binary_runtime ->
  exists e w',
    install E this m w = (Throw e, w')
    /\ spawned w' = spawned w
    /\ (ready E this w ->
        plain_segment (manifest_id m) = true ->
        stat (files w) (join (installDir this) (manifest_id m)) = None ->
        e = match truthy (githubRepo (installation m)) with
            | Some _ => UnsupportedStrategy
            | None => NoInstallationMethod
            end).
Proof.
  intros Htype. apply install_dispatch_throws.
  intros dir w2. by apply dispatch_binary.
Qed.

Lemma binary_always_fails_witness :
  exists w',
    install Mock.services Mock.installer
      (Mock.with_strategy binary_runtime
         {| npmPackage := None; pypiPackage := None; dockerImage := None;
            githubRepo := Some "https://github.com/example/alpha"; command := None |}
         (Mock.makeManifest "alpha" "1.0.0"))
      Mock.fresh
    = (Throw UnsupportedStrategy, w')
    /\ spawned w' = [].
Proof.
  destruct (binary_always_fails Mock.services Mock.installer
              (Mock.with_strategy binary_runtime
                 {| npmPackage := None; pypiPackage := None; dockerImage := None;
                    githubRepo := Some "https://github.com/example/alpha"; command := None |}
                 (Mock.makeManifest "alpha" "1.0.0"))
              Mock.fresh eq_refl) as (e & w' & Hrun & Hspawned & He).
  exists w'. rewrite Hrun, He; [done| |reflexivity|reflexivity].
  split; [reflexivity|]. split; vm_compute; eauto.
Defined.

(** C7 fails as stated: a binary manifest without a GitHub repository
    makes [install] fail with NoInstallationMethod, which is not the
    UnsupportedStrategy error. *)
Lemma binary_without_repository_counterexample :
  (install Mock.services Mock.installer
     (Mock.with_strategy binary_runtime Mock.no_hints (Mock.makeManifest "alpha" "1.0.0"))
     Mock.fresh).1
  = Throw (Error "No installation method available for this server")
  /\ Error "No installation method available for this server" <> UnsupportedStrategy.
Proof. split; [by vm_compute|discriminate]. Qed.






(** C10. [listInstalled] does not validate the ledger document: whatever
    value the document parses to is returned as it is, array or not. *)
Theorem listInstalled_no_validation (E : environment) (this : Installer) (w : world)
    (text : string) (v : json) :
  stat (files w) (join (installDir this) INSTALLED_DB) = Some (File text) ->
  JSON_parse E text = Some v ->
  listInstalled E this w = (Ok v, w).
Proof.
  intros Hfile Hparse. rewrite listInstalled_ledger. unfold ledger, dbPath.
  by rewrite Hfile, Hparse.
Qed.

Lemma listInstalled_no_validation_witness :
  listInstalled Mock.services Mock.installer Mock.object_ledger
  = (Ok (JObj [("servers", JNum 1)]), Mock.object_ledger).
Proof.
  apply (listInstalled_no_validation Mock.services Mock.installer Mock.object_ledger
           (Codec.stringify Mock.not_an_array)); reflexivity.
Defined.

(** * Further properties of src/installer.ts *)

(** ** The queries after a write of the ledger *)

Lemma find_id_upsert x r l existing :
  findIndex_id x l = Ok existing ->
  id_is x r = true ->
  find_id x (upsert existing r l) = Ok (Some r).
Proof.
  intros Hfind Hr. unfold id_is in Hr.
  destruct (get (Some r) "id") as [vr|] eqn:Hgr; [|done].
  revert existing Hfind. induction l as [|s l IH]; intros existing Hfind; simpl in Hfind.
  - injection Hfind as <-. simpl. by rewrite Hgr, Hr.
  - destruct (get (Some s) "id") as [v|e] eqn:Hget; [|done].
    destruct (strict_eq_string v x) eqn:Hv.
    + injection Hfind as <-. simpl. by rewrite Hgr, Hr.
    + destruct (findIndex_id x l) as [found|e] eqn:Hrec; [|done].
      destruct found as [i|]; injection Hfind as <-; simpl; rewrite Hget, Hv;
        [apply (IH (Some i) eq_refl)|apply (IH None eq_refl)].
Qed.

Lemma find_id_filter_id x l l' : filter_id x l = Ok l' -> find_id x l' = Ok None.
Proof.
  revert l'. induction l as [|s l IH]; intros l' Hf; simpl in Hf.
  - by injection Hf as <-.
  - destruct (get (Some s) "id") as [v|e] eqn:Hget; [|done].
    destruct (filter_id x l) as [rest|e]; [|done].
    injection Hf as <-. destruct (strict_eq_string v x) eqn:Hv; [by apply IH|].
    simpl. rewrite Hget, Hv. by apply IH.
Qed.

Section QueryFacts.

Variable E : environment.
Variable this : Installer.

Lemma install_getInstalled m w r w' :
  round_trip E -> keeps_ledger E this ->
  install E this m w = (Ok r, w') ->
  getInstalled E this (manifest_id m) w' = (Ok (server_to_json r), w').
Proof.
  intros Hrt Hkeep Hins.
  apply (install_ledger _ _ _ _ _ _ Hrt Hkeep) in Hins
    as (l & existing & _ & Hfind & Hl' & Hid).
  rewrite getInstalled_run, Hl'.
  rewrite (find_id_upsert _ (server_to_json r) _ _ Hfind); [done|].
  rewrite id_is_server, Hid. apply String.eqb_refl.
Qed.

Lemma remove_getInstalled serverId w w' :
  round_trip E ->
  remove E this serverId w = (Ok tt, w') ->
  getInstalled E this serverId w' = (Ok JNull, w').
Proof.
  intros Hrt Hrm.
  apply (remove_ledger _ _ _ _ _ Hrt) in Hrm as (l & l' & _ & Hf & Hl').
  by rewrite getInstalled_run, Hl', (find_id_filter_id _ _ _ Hf).
Qed.

(** The members of the manifest snapshot that [getRunCommand] reads. *)
Lemma manifest_runtime m :
  get (Some (manifest_to_json m)) "runtime" = Ok (Some (runtime_to_json (runtime m))).
Proof. unfold manifest_to_json. destruct (repository m), (homepage m); reflexivity. Qed.

Lemma manifest_installation m :
  get (Some (manifest_to_json m)) "installation"
  = Ok (Some (installation_to_json (installation m))).
Proof. unfold manifest_to_json. destruct (repository m), (homepage m); reflexivity. Qed.

Lemma runtime_type_member rt :
  get (Some (runtime_to_json rt)) "type" = Ok (Some (JStr (runtime_type_to_string (type rt)))).
Proof. reflexivity. Qed.

Lemma runtime_entry_member rt :
  get (Some (runtime_to_json rt)) "entry" = Ok (Some (JStr (entry rt))).
Proof. reflexivity. Qed.

Lemma installation_image_member i :
  get (Some (installation_to_json i)) "dockerImage" = Ok (JStr <$> dockerImage i).
Proof.
  unfold installation_to_json.
  destruct (npmPackage i), (pypiPackage i), (dockerImage i), (githubRepo i), (command i);
    reflexivity.
Qed.

Lemma getRunCommand_snapshot serverId (m : MCPServerManifest) (dir : string) record w :
  round_trip E ->
  getInstalled E this serverId w = (Ok (JObj record), w) ->
  assoc "path" record = Some (JStr dir) ->
  stat (files w) (join (resolve E dir) "manifest.json")
  = Some (File (JSON_stringify E (manifest_to_json m))) ->
  getRunCommand E this serverId w = (Ok (Some (run_command m dir)), w).
Proof.
  intros Hrt Hget Hpath Hfile. unfold getRunCommand.
  rewrite (bind_run _ _ _ _ _ Hget).
  change (negb (js_truthy (JObj record))) with false. cbv iota.
  unfold lift, bind, as_string, ret, readFileSync, parse, throw.
  change (get (Some (JObj record)) "path") with (Ok (A:=jsval) (assoc "path" record)).
  rewrite Hpath. cbv beta iota.
  rewrite Hfile. cbv beta iota.
  rewrite Hrt. unfold ret. cbv beta iota.
  rewrite manifest_runtime. cbv beta iota.
  rewrite runtime_type_member. cbv beta iota.
  unfold run_command.
  destruct (type (runtime m)); simpl strict_eq_string; cbv beta iota;
    rewrite ?runtime_entry_member, ?manifest_installation; cbv beta iota;
    rewrite ?installation_image_member; reflexivity.
Qed.

End QueryFacts.

(** ** What a failing [install] leaves *)

Section FailureFacts.

Variable E : environment.
Variable this : Installer.

Lemma ledger_grows fs fs' : grows fs fs' -> ledger E this fs' = ledger E this fs.
Proof.
  intros Hg. destruct (Hg (dbPath this)) as [Heq|[Hnone Hdir]].
  - by apply ledger_same.
  - unfold ledger. rewrite dbPath_snoc, !stat_snoc, <- dbPath_snoc. by rewrite Hnone, Hdir.
Qed.

Lemma execSync_ledger command dir w r w' :
  keeps_ledger E this ->
  execSync E command dir w = (r, w') ->
  files w' !! dbPath this = files w !! dbPath this
  /\ spawned w' = spawned w ++ [(command, dir)]
  /\ ticks w' = ticks w.
Proof.
  intros Hkeep. unfold execSync. specialize (Hkeep w command dir).
  by destruct (child_process E w command dir) as [[message fs]|fs]; intros [= <- <-].
Qed.

Lemma compose_not_ledger (dir : list string) : dir ++ ["docker-compose.yml"] <> dbPath this.
Proof.
  rewrite dbPath_snoc. intros Heq. apply (f_equal (@rev string)) in Heq.
  rewrite !rev_app_distr in Heq. simpl in Heq. by injection Heq.
Qed.

Lemma writeFileSync_other p data w r w' q :
  writeFileSync p data w = (r, w') -> p <> q -> files w' !! q = files w !! q.
Proof.
  unfold writeFileSync. intros H Hne.
  destruct (stat (files w) p) as [[|text]|];
    try destruct (stat (files w) (removelast p)) as [[|text']|];
    injection H as <- <-; simpl; by rewrite ?lookup_insert_ne.
Qed.

Lemma dispatch_ledger m (dir : list string) w r w' :
  keeps_ledger E this ->
  dispatch E m dir w = (r, w') ->
  files w' !! dbPath this = files w !! dbPath this.
Proof.
  intros Hkeep. unfold dispatch, installNode, installPython, installDocker, installBinary.
  destruct (type (runtime m)).
  - destruct (truthy (npmPackage _)) as [package|].
    { by intros (? & _)%(execSync_ledger _ _ _ _ _ Hkeep). }
    destruct (truthy (githubRepo _)) as [repo|]; [|by intros [= <- <-]].
    unfold bind. destruct (execSync E _ _ w) as [[[]|e] w1] eqn:H1.
    + apply (execSync_ledger _ _ _ _ _ Hkeep) in H1 as (H1 & _).
      intros (H2 & _)%(execSync_ledger _ _ _ _ _ Hkeep). congruence.
    + apply (execSync_ledger _ _ _ _ _ Hkeep) in H1 as (H1 & _). by intros [= <- <-].
  - destruct (truthy (pypiPackage _)) as [package|].
    { by intros (? & _)%(execSync_ledger _ _ _ _ _ Hkeep). }
    destruct (truthy (githubRepo _)) as [repo|]; [|by intros [= <- <-]].
    unfold bind. destruct (execSync E _ _ w) as [[[]|e] w1] eqn:H1.
    + apply (execSync_ledger _ _ _ _ _ Hkeep) in H1 as (H1 & _).
      intros (H2 & _)%(execSync_ledger _ _ _ _ _ Hkeep). congruence.
    + apply (execSync_ledger _ _ _ _ _ Hkeep) in H1 as (H1 & _). by intros [= <- <-].
  - destruct (truthy (dockerImage _)) as [image|]; [|by intros [= <- <-]].
    unfold bind. destruct (execSync E _ _ w) as [[[]|e] w1] eqn:H1.
    + apply (execSync_ledger _ _ _ _ _ Hkeep) in H1 as (H1 & _).
      intros H2. rewrite join_compose in H2.
      rewrite (writeFileSync_other _ _ _ _ _ _ H2 (compose_not_ledger dir)). done.
    + apply (execSync_ledger _ _ _ _ _ Hkeep) in H1 as (H1 & _). by intros [= <- <-].
  - destruct (truthy (githubRepo _)); by intros [= <- <-].
Qed.

Lemma install_Throw_ledger m w e w' :
  keeps_ledger E this ->
  install E this m w = (Throw e, w') ->
  ledger E this (files w') = ledger E this (files w).
Proof.
  intros Hkeep. rewrite install_unfold.
  intros [H|([] & w1 & Hens & H)]%bind_Throw.
  { apply ensureDirectories_grows in H as (Hg & _). by apply ledger_grows. }
  apply ensureDirectories_grows in Hens as (Hg1 & _).
  rewrite <- (ledger_grows _ _ Hg1). cbv zeta in H.
  rewrite (bind_run _ _ _ _ _ (existsSync_run _ _)) in H.
  case_bool_decide as Hex; [by injection H as _ <-|].
  apply bind_Throw in H as [H|([] & w2 & Hmk & H)].
  { apply mkdirSync_grows in H as (Hg & _). by apply ledger_grows. }
  apply mkdirSync_grows in Hmk as (Hg2 & _).
  rewrite <- (ledger_grows _ _ Hg2).
  apply bind_Throw in H as [H|([] & w3 & Hdis & H)].
  { apply ledger_same. by eapply dispatch_ledger. }
  rewrite <- (ledger_same E this _ _ (dispatch_ledger _ _ _ _ _ Hkeep Hdis)).
  apply bind_Throw in H as [H|([] & w4 & Hwr & H)].
  { by apply writeFileSync_Throw in H as [_ ->]. }
  rewrite join_manifest in Hwr.
  rewrite <- (ledger_same E this _ _
                (writeFileSync_other _ _ _ _ _ _ Hwr (manifest_not_ledger this _))).
  rewrite !(bind_run _ _ _ _ _ (now_run _ _)) in H.
  apply bind_Throw in H as [H|([] & w5 & _ & H)]; [|done].
  by apply addToInstalledDb_Throw in H as [_ ->].
Qed.

Lemma execSync_spawned command dir w r w' :
  execSync E command dir w = (r, w') -> spawned w' = spawned w ++ [(command, dir)].
Proof.
  unfold execSync.
  by destruct (child_process E w command dir) as [[message fs]|fs]; intros [= <- <-].
Qed.

(** The commands a successful strategy has run. *)
Lemma dispatch_spawned m (dir : list string) w w' :
  dispatch E m dir w = (Ok tt, w') ->
  match type (runtime m) with
  | node_runtime =>
      match truthy (npmPackage (installation m)) with
      | Some package => spawned w' = spawned w ++ [("npm install " +:+ package, Some dir)]
      | None =>
          exists repo,
            truthy (githubRepo (installation m)) = Some repo
            /\ spawned w' = spawned w ++ [("git clone " +:+ repo +:+ " .", Some dir);
                                          ("npm install", Some dir)]
      end
  | python_runtime =>
      match truthy (pypiPackage (installation m)) with
      | Some package =>
          spawned w' = spawned w ++ [("pip install " +:+ package +:+ " -t .", Some dir)]
      | None =>
          exists repo,
            truthy (githubRepo (installation m)) = Some repo
            /\ spawned w' = spawned w ++ [("git clone " +:+ repo +:+ " .", Some dir);
                                          ("pip install -e .", Some dir)]
      end
  | docker_runtime =>
      exists image,
        truthy (dockerImage (installation m)) = Some image
        /\ spawned w' = spawned w ++ [("docker pull " +:+ image, None)]
  | binary_runtime => False
  end.
Proof.
  unfold dispatch, installNode, installPython, installDocker, installBinary.
  destruct (type (runtime m)).
  - destruct (truthy (npmPackage _)) as [package|]; [apply execSync_spawned|].
    destruct (truthy (githubRepo _)) as [repo|]; [|done].
    intros ([] & w1 & H1%execSync_spawned & H2%execSync_spawned)%bind_Ok.
    exists repo. split; [done|]. by rewrite H2, H1, <- app_assoc.
  - destruct (truthy (pypiPackage _)) as [package|]; [apply execSync_spawned|].
    destruct (truthy (githubRepo _)) as [repo|]; [|done].
    intros ([] & w1 & H1%execSync_spawned & H2%execSync_spawned)%bind_Ok.
    exists repo. split; [done|]. by rewrite H2, H1, <- app_assoc.
  - destruct (truthy (dockerImage _)) as [image|]; [|done].
    intros ([] & w1 & H1%execSync_spawned & [H2 _]%writeFileSync_result)%bind_Ok.
    exists image. split; [done|]. by rewrite H2, H1.
  - by destruct (truthy (githubRepo _)).
Qed.

Lemma addToInstalledDb_result server w r w' :
  addToInstalledDb E this server w = (r, w') ->
  spawned w' = spawned w /\ ticks w' = ticks w.
Proof.
  destruct r as [[]|e].
  - by intros (l & existing & _ & _ & _ & ->)%addToInstalledDb_Ok.
  - by intros [_ ->]%addToInstalledDb_Throw.
Qed.

End FailureFacts.

Section InstallSteps.

Variable E : environment.
Variable this : Installer.

(** The worlds a successful [install] goes through. *)
Lemma install_Ok_steps m w r w' :
  install E this m w = (Ok r, w') ->
  let serverDir := join (installDir this) (manifest_id m) in
  exists w1 w2 w3 l existing,
    ensureDirectories E w = (Ok tt, w1)
    /\ mkdirSync serverDir w1 = (Ok tt, w2)
    /\ dispatch E m serverDir w2 = (Ok tt, w3)
    /\ findIndex_id (manifest_id m) l = Ok existing
    /\ files w'
       = <[dbPath this := File (JSON_stringify E (JArr (upsert existing (server_to_json r) l)))]>
           (<[serverDir ++ ["manifest.json"] := File (JSON_stringify E (manifest_to_json m))]>
              (files w3))
    /\ spawned w' = spawned w3.
Proof.
  rewrite install_unfold. intros H serverDir.
  apply bind_Ok in H as ([] & w1 & Hens & H).
  cbv zeta in H. fold serverDir in H.
  rewrite (bind_run _ _ _ _ _ (existsSync_run _ _)) in H.
  case_bool_decide as Hex; [done|].
  apply bind_Ok in H as ([] & w2 & Hmk & H).
  apply bind_Ok in H as ([] & w3 & Hdis & H).
  apply bind_Ok in H as ([] & w4 & Hwr & H).
  apply writeFileSync_Ok in Hwr as (_ & _ & ->).
  rewrite !(bind_run _ _ _ _ _ (now_run _ _)) in H. simpl in H.
  apply bind_Ok in H as ([] & w7 & Hadd & H).
  injection H as <- <-.
  apply addToInstalledDb_Ok in Hadd as (l & existing & _ & Hfind & _ & ->).
  exists w1, w2, w3, l, existing. simpl. by rewrite join_manifest.
Qed.

Lemma install_spawned m w r w' :
  install E this m w = (Ok r, w') ->
  exists w2 w3,
    dispatch E m (join (installDir this) (manifest_id m)) w2 = (Ok tt, w3)
    /\ spawned w2 = spawned w /\ spawned w' = spawned w3.
Proof.
  intros (w1 & w2 & w3 & l & existing & Hens & Hmk & Hdis & _ & _ & Hs)%install_Ok_steps.
  apply ensureDirectories_grows in Hens as (_ & Hs1 & _).
  apply mkdirSync_grows in Hmk as (_ & Hs2 & _).
  exists w2, w3. split; [done|]. split; congruence.
Qed.


(** Every command fails, leaving [dir] in place: the strategy throws
    and [dir] is still there. *)
Lemma dispatch_all_fail m (dir : list string) w :
  is_Some (stat (files w) dir) ->
  (forall command d,
      exists message fs,
        child_process E w command d = inl (message, fs) /\ is_Some (stat fs dir)) ->
  exists e w', dispatch E m dir w = (Throw e, w') /\ is_Some (stat (files w') dir).
Proof.
  intros Hdir Hfail.
  assert (forall command d,
             exists message fs,
               execSync E command d w
               = (Throw (ChildProcessError message),
                  {| files := fs; spawned := spawned w ++ [(command, d)];
                     ticks := ticks w |})
               /\ is_Some (stat fs dir)) as Hexec.
  { intros command d. destruct (Hfail command d) as (message & fs & Hc & Hfs).
    exists message, fs. unfold execSync. by rewrite Hc. }
  unfold dispatch, installNode, installPython, installDocker, installBinary.
  destruct (type (runtime m)).
  - destruct (truthy (npmPackage _)) as [package|].
    { destruct (Hexec ("npm install " +:+ package) (Some dir)) as (? & ? & -> & ?).
      by eexists _, _. }
    destruct (truthy (githubRepo _)) as [repo|]; [|by eexists _, _].
    destruct (Hexec ("git clone " +:+ repo +:+ " .") (Some dir)) as (? & ? & He & ?).
    rewrite (bind_fail _ _ _ _ _ He). by eexists _, _.
  - destruct (truthy (pypiPackage _)) as [package|].
    { destruct (Hexec ("pip install " +:+ package +:+ " -t .") (Some dir)) as (? & ? & -> & ?).
      by eexists _, _. }
    destruct (truthy (githubRepo _)) as [repo|]; [|by eexists _, _].
    destruct (Hexec ("git clone " +:+ repo +:+ " .") (Some dir)) as (? & ? & He & ?).
    rewrite (bind_fail _ _ _ _ _ He). by eexists _, _.
  - destruct (truthy (dockerImage _)) as [image|]; [|by eexists _, _].
    destruct (Hexec ("docker pull " +:+ image) None) as (? & ? & He & ?).
    rewrite (bind_fail _ _ _ _ _ He). by eexists _, _.
  - destruct (truthy (githubRepo _)); by eexists _, _.
Qed.

End InstallSteps.

(** ** The properties *)

(** X1. After a successful [install] of [m] under an installation
    directory in normal form, [getRunCommand(m.id)] returns the command
    of the runtime of [m]: the entry of the manifest snapshot joined,
    as [path.join] does, to the path of the record, which is
    [join(installDir, m.id)]. *)
Theorem install_then_getRunCommand (E : environment) (this : Installer)
    (m : MCPServerManifest) (w : world) (r : InstalledServer) (w' : world) :
  round_trip E ->
  keeps_ledger E this ->
  wf_path (installDir this) ->
  install E this m w = (Ok r, w') ->
  getRunCommand E this (manifest_id m) w' = (Ok (Some (run_command m (server_path r))), w')
  /\ server_path r = path_join (path_to_string (installDir this)) (manifest_id m).
Proof.
  intros Hrt Hkeep Hwf Hins.
  pose proof (install_getInstalled _ _ _ _ _ _ Hrt Hkeep Hins) as Hget.
  apply (install_Ok _ _ _ _ _ _ Hkeep) in Hins as (-> & _ & _ & _ & Hfile & _).
  split; [|reflexivity].
  eapply getRunCommand_snapshot; [done|exact Hget|reflexivity|].
  change (server_path (record_at E this m (ticks w)))
    with (path_join (path_to_string (installDir this)) (manifest_id m)).
  by rewrite (resolve_path_join E _ _ Hwf), join_manifest, stat_snoc.
Qed.

Lemma install_then_getRunCommand_witness :
  getRunCommand Mock.services Mock.installer "alpha"
    (Mock.after_install "alpha" "1.0.0" Mock.fresh)
  = (Ok (Some "node /tmp/servers/alpha/index.js"),
     Mock.after_install "alpha" "1.0.0" Mock.fresh).
Proof.
  refine (proj1 (install_then_getRunCommand Mock.services Mock.installer
                   (Mock.makeManifest "alpha" "1.0.0") Mock.fresh
                   (record_at Mock.services Mock.installer (Mock.makeManifest "alpha" "1.0.0") 0)
                   (Mock.after_install "alpha" "1.0.0" Mock.fresh)
                   mock_round_trip mock_keeps_ledger _ _)).
  - by repeat constructor.
  - vm_compute. reflexivity.
Defined.

(** X2. After a successful [install] of [m], [getInstalled(m.id)]
    returns the record [install] returned and [isInstalled(m.id)] is
    true. *)
Theorem install_then_isInstalled (E : environment) (this : Installer)
    (m : MCPServerManifest) (w : world) (r : InstalledServer) (w' : world) :
  round_trip E ->
  keeps_ledger E this ->
  install E this m w = (Ok r, w') ->
  getInstalled E this (manifest_id m) w' = (Ok (server_to_json r), w')
  /\ isInstalled E this (manifest_id m) w' = (Ok true, w').
Proof.
  intros Hrt Hkeep Hins.
  pose proof (install_getInstalled _ _ _ _ _ _ Hrt Hkeep Hins) as Hget.
  split; [done|]. by rewrite isInstalled_run, Hget.
Qed.

Lemma install_then_isInstalled_witness :
  isInstalled Mock.services Mock.installer "alpha"
    (Mock.after_install "alpha" "1.0.0" Mock.fresh)
  = (Ok true, Mock.after_install "alpha" "1.0.0" Mock.fresh).
Proof.
  refine (proj2 (install_then_isInstalled Mock.services Mock.installer
                   (Mock.makeManifest "alpha" "1.0.0") Mock.fresh
                   (record_at Mock.services Mock.installer (Mock.makeManifest "alpha" "1.0.0") 0)
                   (Mock.after_install "alpha" "1.0.0" Mock.fresh)
                   mock_round_trip mock_keeps_ledger _)).
  vm_compute. reflexivity.
Defined.

(** X3. After a successful [remove(id)], [getInstalled(id)] is [null],
    [isInstalled(id)] is false and [getRunCommand(id)] is [null]. *)
Theorem remove_then_not_installed (E : environment) (this : Installer)
    (id : string) (w w' : world) :
  round_trip E ->
  remove E this id w = (Ok tt, w') ->
  getInstalled E this id w' = (Ok JNull, w')
  /\ isInstalled E this id w' = (Ok false, w')
  /\ getRunCommand E this id w' = (Ok None, w').
Proof.
  intros Hrt Hrm.
  pose proof (remove_getInstalled _ _ _ _ _ Hrt Hrm) as Hget.
  split; [done|]. split; [by rewrite isInstalled_run, Hget|].
  apply getRunCommand_null. by rewrite Hget.
Qed.

Lemma remove_then_not_installed_witness :
  isInstalled Mock.services Mock.installer "gamma"
    (remove Mock.services Mock.installer "gamma"
       (Mock.after_install "gamma" "2.0.0" Mock.fresh)).2
  = (Ok false,
     (remove Mock.services Mock.installer "gamma"
        (Mock.after_install "gamma" "2.0.0" Mock.fresh)).2).
Proof.
  refine (proj1 (proj2 (remove_then_not_installed Mock.services Mock.installer "gamma"
                          (Mock.after_install "gamma" "2.0.0" Mock.fresh) _
                          mock_round_trip _))).
  vm_compute. reflexivity.
Defined.



(** X5. An [install] that fails, wherever it fails, leaves the ledger
    as [listInstalled] reads it unchanged. *)
Theorem failed_install_keeps_ledger (E : environment) (this : Installer)
    (m : MCPServerManifest) (w : world) (e : exn) (w' : world) :
  keeps_ledger E this ->
  install E this m w = (Throw e, w') ->
  (listInstalled E this w').1 = (listInstalled E this w).1.
Proof.
  intros Hkeep Hins. rewrite !listInstalled_ledger. simpl.
  by rewrite (install_Throw_ledger _ _ _ _ _ _ Hkeep Hins).
Qed.

Lemma failed_install_keeps_ledger_witness :
  (listInstalled Mock.services Mock.installer
     (install Mock.services Mock.installer (Mock.makeManifest "alpha" "1.0.1")
        (Mock.after_install "alpha" "1.0.0" Mock.fresh)).2).1
  = (listInstalled Mock.services Mock.installer
       (Mock.after_install "alpha" "1.0.0" Mock.fresh)).1.
Proof.
  refine (failed_install_keeps_ledger Mock.services Mock.installer
            (Mock.makeManifest "alpha" "1.0.1")
            (Mock.after_install "alpha" "1.0.0" Mock.fresh)
            (AlreadyInstalled "alpha") _ mock_keeps_ledger _).
  vm_compute. reflexivity.
Defined.

(** X6. [update] is remove then install: when the remove succeeds and
    the install then fails, [update] fails with the error of the
    install and the package is left uninstalled, not at its old
    version: [isInstalled] is false and [getRunCommand] is [null]. *)
Theorem failed_update_uninstalls (E : environment) (this : Installer)
    (m : MCPServerManifest) (w w1 : world) (e : exn) (w' : world) :
  round_trip E ->
  keeps_ledger E this ->
  remove E this (manifest_id m) w = (Ok tt, w1) ->
  install E this m w1 = (Throw e, w') ->
  update E this m w = (Throw e, w')
  /\ isInstalled E this (manifest_id m) w' = (Ok false, w')
  /\ getRunCommand E this (manifest_id m) w' = (Ok None, w').
Proof.
  intros Hrt Hkeep Hrm Hins.
  pose proof (remove_Ok _ _ _ _ _ Hrm) as (Hex & _).
  split.
  { rewrite (update_present _ _ _ _ Hex), (bind_run _ _ _ _ _ Hrm). done. }
  assert (getInstalled E this (manifest_id m) w' = (Ok JNull, w')) as Hget.
  { pose proof (remove_getInstalled _ _ _ _ _ Hrt Hrm) as Hget1.
    rewrite getInstalled_run in Hget1. rewrite getInstalled_run.
    rewrite (install_Throw_ledger _ _ _ _ _ _ Hkeep Hins).
    by injection Hget1 as ->. }
  split; [by rewrite isInstalled_run, Hget|].
  apply getRunCommand_null. by rewrite Hget.
Qed.

Lemma failed_update_uninstalls_witness :
  isInstalled Mock.services Mock.installer "beta"
    (update Mock.services Mock.installer
       (Mock.with_strategy node_runtime Mock.no_hints (Mock.makeManifest "beta" "1.1.0"))
       (Mock.after_install "beta" "1.0.0" Mock.fresh)).2
  = (Ok false,
     (update Mock.services Mock.installer
        (Mock.with_strategy node_runtime Mock.no_hints (Mock.makeManifest "beta" "1.1.0"))
        (Mock.after_install "beta" "1.0.0" Mock.fresh)).2).
Proof.
  refine (proj1 (proj2 (failed_update_uninstalls Mock.services Mock.installer
                          (Mock.with_strategy node_runtime Mock.no_hints
                             (Mock.makeManifest "beta" "1.1.0"))
                          (Mock.after_install "beta" "1.0.0" Mock.fresh)
                          (remove Mock.services Mock.installer "beta"
                             (Mock.after_install "beta" "1.0.0" Mock.fresh)).2
                          NoInstallationMethod _
                          mock_round_trip mock_keeps_ledger _ _))).
  - vm_compute. reflexivity.
  - vm_compute. reflexivity.
Defined.

(** X7. [install] does not clean up after a command that fails: when
    every command the external tools are given fails, leaving the
    target directory in place (whatever else it wrote), [install] fails
    with the directory left behind, and a second [install] of the same
    id fails with AlreadyInstalled. *)
Theorem failed_command_blocks_retry (E : environment) (this : Installer)
    (m : MCPServerManifest) (w : world) :
  let serverDir := join (installDir this) (manifest_id m) in
  ready E this w ->
  plain_segment (manifest_id m) = true ->
  stat (files w) serverDir = None ->
  (forall command dir,
      exists message fs,
        child_process E (set_files (<[serverDir := Dir]> (files w)) w) command dir
        = inl (message, fs)
        /\ is_Some (stat fs serverDir)) ->
  exists e w',
    install E this m w = (Throw e, w')
    /\ is_Some (stat (files w') serverDir)
    /\ (forall w1,
          ensureDirectories E w' = (Ok tt, w1) ->
          install E this m w' = (Throw (AlreadyInstalled (manifest_id m)), w1)).
Proof.
  intros serverDir Hready Hplain Habs Hfail.
  pose proof (ensureDirectories_ready _ _ _ Hready) as Hens.
  destruct Hready as (Hdir & _).
  assert (~ is_Some (stat (files w) serverDir)) as Hex
    by (rewrite Habs; by intros [? ?]).
  rewrite (install_absent _ _ _ _ _ Hens Hex). fold serverDir.
  assert (mkdirSync serverDir w = (Ok tt, set_files (<[serverDir := Dir]> (files w)) w))
    as Hmk.
  { unfold serverDir in *. rewrite (join_plain _ _ Hplain) in *. by apply mkdirSync_child. }
  rewrite (bind_run _ _ _ _ _ Hmk).
  assert (is_Some (stat (files (set_files (<[serverDir := Dir]> (files w)) w)) serverDir))
    as Hmade.
  { simpl. unfold serverDir. rewrite (join_plain _ _ Hplain), stat_snoc.
    rewrite lookup_insert_eq. eauto. }
  destruct (dispatch_all_fail E m serverDir _ Hmade Hfail) as (e & w' & Hdis & Hthere).
  exists e, w'. rewrite (bind_fail _ _ _ _ _ Hdis). split; [done|]. split; [done|].
  intros w1 Hens'. apply install_present; [done|].
  pose proof (ensureDirectories_grows _ _ _ _ Hens') as (Hg & _).
  destruct Hthere as [x Hx]. fold serverDir. rewrite (grows_stat _ _ _ _ Hg Hx). eauto.
Qed.

Lemma failed_command_blocks_retry_witness :
  exists e w',
    install Mock.offline Mock.installer (Mock.makeManifest "alpha" "1.0.0") Mock.fresh
    = (Throw e, w')
    /\ is_Some (stat (files w') ["tmp"; "servers"; "alpha"]).
Proof.
  destruct (failed_command_blocks_retry Mock.offline Mock.installer
              (Mock.makeManifest "alpha" "1.0.0") Mock.fresh)
    as (e & w' & Hrun & Hthere & _).
  - split; [reflexivity|]. split; vm_compute; eauto.
  - reflexivity.
  - reflexivity.
  - intros command dir. eexists _, _. split; [reflexivity|].
    destruct dir as [d|]; [|by vm_compute; eauto].
    simpl. destruct (decide (d ++ ["debug.log"] = ["tmp"; "servers"; "alpha"])) as [->|Hne].
    + rewrite lookup_insert_eq. eauto.
    + rewrite lookup_insert_ne by done. vm_compute. eauto.
  - by exists e, w'.
Defined.

(** X8. A successful [install] has run the commands of one hint and no
    other: the registry package when the manifest names one (even if it
    also names a repository), else the clone of the repository followed
    by the install step; for a container, the pull of the image. An
    empty hint counts as missing, and the binary runtime never
    succeeds. *)
Theorem install_runs_preferred_hint (E : environment) (this : Installer)
    (m : MCPServerManifest) (w : world) (r : InstalledServer) (w' : world) :
  install E this m w = (Ok r, w') ->
  let serverDir := join (installDir this) (manifest_id m) in
  match type (runtime m) with
  | node_runtime =>
      match truthy (npmPackage (installation m)) with
      | Some package =>
          spawned w' = spawned w ++ [("npm install " +:+ package, Some serverDir)]
      | None =>
          exists repo,
            truthy (githubRepo (installation m)) = Some repo
            /\ spawned w' = spawned w ++ [("git clone " +:+ repo +:+ " .", Some serverDir);
                                          ("npm install", Some serverDir)]
      end
  | python_runtime =>
      match truthy (pypiPackage (installation m)) with
      | Some package =>
          spawned w' = spawned w ++ [("pip install " +:+ package +:+ " -t .", Some serverDir)]
      | None =>
          exists repo,
            truthy (githubRepo (installation m)) = Some repo
            /\ spawned w' = spawned w ++ [("git clone " +:+ repo +:+ " .", Some serverDir);
                                          ("pip install -e .", Some serverDir)]
      end
  | docker_runtime =>
      exists image,
        truthy (dockerImage (installation m)) = Some image
        /\ spawned w' = spawned w ++ [("docker pull " +:+ image, None)]
  | binary_runtime => False
  end.
Proof.
  intros (w2 & w3 & Hdis & Hs2 & Hs3)%install_spawned serverDir.
  apply dispatch_spawned in Hdis. fold serverDir in Hdis.
  rewrite Hs3, <- Hs2. exact Hdis.
Qed.

Lemma install_runs_preferred_hint_witness :
  spawned (Mock.after_install "alpha" "1.0.0" Mock.fresh)
  = spawned Mock.fresh ++ [("npm install alpha-package", Some ["tmp"; "servers"; "alpha"])].
Proof.
  refine (install_runs_preferred_hint Mock.services Mock.installer
            (Mock.makeManifest "alpha" "1.0.0") Mock.fresh
            (record_at Mock.services Mock.installer (Mock.makeManifest "alpha" "1.0.0") 0)
            (Mock.after_install "alpha" "1.0.0" Mock.fresh) _).
  vm_compute. reflexivity.
Defined.

(** X9. A successful [install] of a container manifest leaves, in the
    target directory, a docker-compose.yml naming the package and its
    image. *)
Theorem container_install_writes_descriptor (E : environment) (this : Installer)
    (m : MCPServerManifest) (w : world) (r : InstalledServer) (w' : world) :
  type (runtime m) = docker_runtime ->
  install E this m w = (Ok r, w') ->
  exists image,
    truthy (dockerImage (installation m)) = Some image
    /\ stat (files w') (join (join (installDir this) (manifest_id m)) "docker-compose.yml")
       = Some (File ("services:" +:+ nl +:+ "  " +:+ manifest_id m +:+ ":" +:+ nl
                     +:+ "    image: " +:+ image +:+ nl)).
Proof.
  intros Htype (w1 & w2 & w3 & l & existing & _ & _ & Hdis & _ & Hfiles & _)%install_Ok_steps.
  unfold dispatch in Hdis. rewrite Htype in Hdis. unfold installDocker in Hdis.
  destruct (truthy (dockerImage (installation m))) as [image|]; [|done].
  apply bind_Ok in Hdis as ([] & w2' & _ & Hwr).
  apply writeFileSync_Ok in Hwr as (_ & _ & ->).
  exists image. split; [done|].
  rewrite Hfiles, join_compose, stat_snoc. simpl.
  rewrite lookup_insert_ne by (apply not_eq_sym, compose_not_ledger).
  rewrite lookup_insert_ne.
  - by rewrite lookup_insert_eq.
  - intros Heq. apply (f_equal (@rev string)) in Heq.
    rewrite !rev_app_distr in Heq. simpl in Heq. by injection Heq.
Qed.

Lemma container_install_writes_descriptor_witness :
  exists image,
    truthy (Some "example/img:1") = Some image
    /\ stat (files (install Mock.services Mock.installer
                      (Mock.with_strategy docker_runtime
                         {| npmPackage := None; pypiPackage := None;
                            dockerImage := Some "example/img:1";
                            githubRepo := None; command := None |}
                         (Mock.makeManifest "box" "1.0.0"))
                      Mock.fresh).2)
         ["tmp"; "servers"; "box"; "docker-compose.yml"]
       = Some (File ("services:" +:+ nl +:+ "  box:" +:+ nl
                     +:+ "    image: " +:+ image +:+ nl)).
Proof.
  refine (container_install_writes_descriptor Mock.services Mock.installer
            (Mock.with_strategy docker_runtime
               {| npmPackage := None; pypiPackage := None;
                  dockerImage := Some "example/img:1";
                  githubRepo := None; command := None |}
               (Mock.makeManifest "box" "1.0.0"))
            Mock.fresh
            (record_at Mock.services Mock.installer (Mock.makeManifest "box" "1.0.0") 0)
            _ eq_refl _).
  vm_compute. reflexivity.
Defined.

(** X10. The sibling strategies check their hints before running
    anything: a python manifest with neither a PyPI package nor a
    repository, and a container manifest without an image, make
    [install] fail with no command run; in a world ready for the
    install the errors are NoInstallationMethod and "Docker image not
    specified". *)
Theorem strategy_checks_hints_first (E : environment) (this : Installer)
    (m : MCPServerManifest) (w : world) :
  (type (runtime m) = python_runtime
   /\ truthy (pypiPackage (installation m)) = None
   /\ truthy (githubRepo (installation m)) = None)
  \/ (type (runtime m) = docker_runtime
      /\ truthy (dockerImage (installation m)) = None) ->
  exists e w',
    install E this m w = (Throw e, w')
    /\ spawned w' = spawned w
    /\ (ready E this w ->
        plain_segment (manifest_id m) = true ->
        stat (files w) (join (installDir this) (manifest_id m)) = None ->
        e = match type (runtime m) with
            | docker_runtime => Error "Docker image not specified"
            | _ => NoInstallationMethod
            end).
Proof.
  intros [(Htype & Hpypi & Hrepo)|(Htype & Himage)]; rewrite Htype;
    apply install_dispatch_throws; intros dir w2;
    unfold dispatch; rewrite Htype.
  - unfold installPython. by rewrite Hpypi, Hrepo.
  - unfold installDocker. by rewrite Himage.
Qed.

Lemma strategy_checks_hints_first_witness :
  exists w',
    install Mock.services Mock.installer
      (Mock.with_strategy docker_runtime Mock.no_hints (Mock.makeManifest "box" "1.0.0"))
      Mock.fresh
    = (Throw (Error "Docker image not specified"), w')
    /\ spawned w' = [].
Proof.
  destruct (strategy_checks_hints_first Mock.services Mock.installer
              (Mock.with_strategy docker_runtime Mock.no_hints (Mock.makeManifest "box" "1.0.0"))
              Mock.fresh) as (e & w' & Hrun & Hspawned & He).
  - right. by split.
  - exists w'. rewrite Hrun, He; [done| |reflexivity|reflexivity].
    split; [reflexivity|]. split; vm_compute; eauto.
Defined.

(** ** More facts about the file system and the ledger *)

Lemma snoc_prefix_eq (p : list string) a b : (p ++ [a]) `prefix_of` (p ++ [b]) -> a = b.
Proof.
  intros [k Hk]. rewrite <- app_assoc in Hk. apply app_inv_head in Hk.
  by injection Hk.
Qed.

Lemma mkdirp_Ok_dir leaf rp fs fs' : mkdirp leaf rp fs = inr fs' -> stat fs' (rev rp) = Some Dir.
Proof.
  destruct rp as [|s rp]; [done|]. simpl.
  destruct (stat fs (rev rp ++ [s])) as [[|text]|] eqn:Hstat.
  - by intros [= <-].
  - done.
  - destruct (mkdirp false rp fs) as [e|fs1]; [done|].
    intros [= <-]. by rewrite stat_snoc, lookup_insert_eq.
Qed.

Lemma mkdirSync_Ok_dir p w w' : mkdirSync p w = (Ok tt, w') -> stat (files w') p = Some Dir.
Proof.
  unfold mkdirSync. destruct (mkdirp true (rev p) (files w)) as [e|fs] eqn:Hm; [done|].
  intros [= <-]. simpl. apply mkdirp_Ok_dir in Hm. by rewrite rev_involutive in Hm.
Qed.

Lemma ensure_step_exists dir w w' :
  bind (existsSync dir) (fun present => if negb present then mkdirSync dir else ret tt) w
  = (Ok tt, w') ->
  is_Some (stat (files w') dir).
Proof.
  rewrite (bind_run _ _ _ _ _ (existsSync_run _ _)).
  case_bool_decide as Hex; simpl.
  - by intros [= <-].
  - intros ->%mkdirSync_Ok_dir. eauto.
Qed.

Lemma findIndex_id_total x l :
  Forall (fun s => s <> JNull) l -> exists existing, findIndex_id x l = Ok existing.
Proof.
  induction 1 as [|s l Hs _ [existing IH]]; simpl; [eauto|].
  assert (exists v, get (Some s) "id" = Ok v) as [v ->]
    by (unfold get; destruct s; eauto; done).
  destruct (strict_eq_string v x); [eauto|]. rewrite IH. destruct existing; eauto.
Qed.

(** ** The properties, continued *)

(** X11. [remove] deletes the directory before it touches the ledger:
    when the ledger document holds a value that is not an array,
    [remove] of an existing directory fails with a TypeError, the
    directory is gone all the same and the ledger document is as it
    was. *)
Theorem remove_not_transactional (E : environment) (this : Installer)
    (id : string) (w : world) (v : json) :
  plain_segment id = true ->
  id <> INSTALLED_DB ->
  is_Some (stat (files w) (join (installDir this) id)) ->
  listInstalled E this w = (Ok v, w) ->
  is_array v = false ->
  exists w',
    remove E this id w = (Throw TypeError, w')
    /\ stat (files w') (join (installDir this) id) = None
    /\ files w' !! join (installDir this) INSTALLED_DB
       = files w !! join (installDir this) INSTALLED_DB.
Proof.
  intros Hplain Hne Hex Hlist Harr.
  rewrite listInstalled_ledger in Hlist. injection Hlist as Hv.
  rewrite (remove_present _ _ _ _ Hex). rewrite (join_plain _ _ Hplain) in *.
  assert (~ (installDir this ++ [id]) `prefix_of` dbPath this) as Hpre.
  { rewrite dbPath_snoc. by intros ?%snoc_prefix_eq. }
  eexists. split; [|split].
  - unfold removeFromInstalledDb. rewrite (bind_run _ _ _ _ _ (listInstalled_ledger _ _ _)).
    simpl files. rewrite (ledger_same E this _ _ (without_other _ _ _ Hpre)), Hv.
    by destruct v.
  - simpl. rewrite stat_snoc. by apply without_prefix.
  - simpl. by apply without_other.
Qed.

Lemma remove_not_transactional_witness :
  exists w',
    remove Mock.services Mock.installer "alpha" Mock.object_ledger_and_directory
    = (Throw TypeError, w')
    /\ stat (files w') ["tmp"; "servers"; "alpha"] = None
    /\ files w' !! ["tmp"; "servers"; "installed.json"]
       = files Mock.object_ledger_and_directory !! ["tmp"; "servers"; "installed.json"].
Proof.
  refine (remove_not_transactional Mock.services Mock.installer "alpha"
            Mock.object_ledger_and_directory Mock.not_an_array eq_refl _ _ _ eq_refl).
  - discriminate.
  - vm_compute. eauto.
  - vm_compute. reflexivity.
Defined.

(** X12. When [ensureDirectories] returns, the cache directory and the
    installation directory of the configuration exist; it has only
    added directories where there was nothing, has run no command and
    has not read the clock. *)
Theorem ensureDirectories_creates (E : environment) (w w' : world) :
  ensureDirectories E w = (Ok tt, w') ->
  is_Some (stat (files w') (cacheDir (getConfig E (files w))))
  /\ is_Some (stat (files w') (config_installDir (getConfig E (files w))))
  /\ grows (files w) (files w')
  /\ spawned w' = spawned w
  /\ ticks w' = ticks w.
Proof.
  intros Hens.
  pose proof (ensureDirectories_grows E _ _ _ Hens) as (Hg & Hs & Ht).
  unfold ensureDirectories in Hens. simpl in Hens.
  apply bind_Ok in Hens as ([] & w1 & H1 & H2).
  apply bind_Ok in H2 as ([] & w2 & H2 & [= <-]).
  pose proof (ensure_step _ _ _ _ H2) as (Hg2 & _).
  apply ensure_step_exists in H1 as [x Hx], H2.
  split; [|done]. rewrite (grows_stat _ _ _ _ Hg2 Hx). eauto.
Qed.

Lemma ensureDirectories_creates_witness :
  is_Some (stat (files (ensureDirectories Mock.services Mock.empty_disk).2) ["tmp"; "cache"]).
Proof.
  refine (proj1 (ensureDirectories_creates Mock.services Mock.empty_disk _ _)).
  vm_compute. reflexivity.
Defined.

(** X13. A record whose manifest snapshot cannot be read is fatal for
    [getRunCommand], unlike a ledger that cannot be read: with the
    snapshot missing it throws the ENOENT of [readFileSync], with a
    snapshot that does not parse it throws the SyntaxError of
    [JSON.parse]. *)
Theorem getRunCommand_needs_snapshot (E : environment) (this : Installer)
    (id : string) (w : world) (record : list (string * json)) (p : string) :
  getInstalled E this id w = (Ok (JObj record), w) ->
  assoc "path" record = Some (JStr p) ->
  (stat (files w) (join (resolve E p) "manifest.json") = None ->
   getRunCommand E this id w = (Throw (SystemError ENOENT), w))
  /\ (forall text,
        stat (files w) (join (resolve E p) "manifest.json") = Some (File text) ->
        JSON_parse E text = None ->
        getRunCommand E this id w = (Throw SyntaxError, w)).
Proof.
  intros Hget Hpath.
  assert (getRunCommand E this id w
          = bind (readFileSync (join (resolve E p) "manifest.json"))
              (fun text =>
                 bind (parse E text)
                   (fun manifest =>
                      (let serverDir := p in
                       bind (lift (get (Some manifest) "runtime"))
                         (fun manifest_runtime =>
                            bind (lift (get manifest_runtime "type"))
                              (fun runtime_type =>
                                 if strict_eq_string runtime_type "node" then
                                   bind (lift (get manifest_runtime "entry"))
                                     (fun e => bind (as_string e)
                                                 (fun e => ret (Some ("node " +:+ path_join serverDir e))))
                                 else if strict_eq_string runtime_type "python" then
                                   bind (lift (get manifest_runtime "entry"))
                                     (fun e => bind (as_string e)
                                                 (fun e => ret (Some ("python " +:+ path_join serverDir e))))
                                 else if strict_eq_string runtime_type "docker" then
                                   bind (lift (get (Some manifest) "installation"))
                                     (fun manifest_installation =>
                                        bind (lift (get manifest_installation "dockerImage"))
                                          (fun image => ret (Some ("docker run " +:+ template image))))
                                 else if strict_eq_string runtime_type "binary" then
                                   bind (lift (get manifest_runtime "entry"))
                                     (fun e => bind (as_string e)
                                                 (fun e => ret (Some (path_join serverDir e))))
                                 else ret None))))) w) as ->.
  { unfold getRunCommand. rewrite (bind_run _ _ _ _ _ Hget).
    change (negb (js_truthy (JObj record))) with false. cbv iota.
    unfold lift at 1. unfold bind at 1.
    change (get (Some (JObj record)) "path") with (Ok (A:=jsval) (assoc "path" record)).
    rewrite Hpath. unfold as_string at 1. unfold bind at 1. reflexivity. }
  split.
  - intros Hnone. unfold bind, readFileSync. by rewrite Hnone.
  - intros text Hfile Hparse. unfold bind at 1. unfold readFileSync. rewrite Hfile.
    unfold bind, parse. by rewrite Hparse.
Qed.

Lemma getRunCommand_needs_snapshot_witness :
  getRunCommand Mock.services Mock.installer "alpha" Mock.corrupt_snapshot
  = (Throw SyntaxError, Mock.corrupt_snapshot).
Proof.
  refine (proj2 (getRunCommand_needs_snapshot Mock.services Mock.installer "alpha"
                   Mock.corrupt_snapshot _ "/tmp/servers/alpha" _ _) "not json" _ _).
  - vm_compute. reflexivity.
  - reflexivity.
  - vm_compute. reflexivity.
  - reflexivity.
Defined.

(** X14. [listInstalled] hands back a ledger that is not an array, and
    the queries built on it then fail: [getInstalled], [isInstalled]
    and [getRunCommand] throw a TypeError and leave the world as it
    is. *)
Theorem queries_fail_on_non_array_ledger (E : environment) (this : Installer)
    (id : string) (w : world) (v : json) :
  listInstalled E this w = (Ok v, w) ->
  is_array v = false ->
  getInstalled E this id w = (Throw TypeError, w)
  /\ isInstalled E this id w = (Throw TypeError, w)
  /\ getRunCommand E this id w = (Throw TypeError, w).
Proof.
  intros Hlist Harr. rewrite listInstalled_ledger in Hlist. injection Hlist as Hv.
  assert (getInstalled E this id w = (Throw TypeError, w)) as Hget.
  { rewrite getInstalled_run, Hv. by destruct v. }
  split; [done|]. split.
  - by rewrite isInstalled_run, Hget.
  - unfold getRunCommand. by rewrite (bind_fail _ _ _ _ _ Hget).
Qed.

Lemma queries_fail_on_non_array_ledger_witness :
  isInstalled Mock.services Mock.installer "alpha" Mock.object_ledger
  = (Throw TypeError, Mock.object_ledger).
Proof.
  refine (proj1 (proj2 (queries_fail_on_non_array_ledger Mock.services Mock.installer "alpha"
                          Mock.object_ledger Mock.not_an_array _ eq_refl))).
  vm_compute. reflexivity.
Defined.

(** X15. A successful [remove] of a plain id other than the name of the
    ledger document drops the records of that id and nothing else: the
    records of every other id are as they were. *)
Theorem remove_keeps_other_records (E : environment) (this : Installer)
    (id : string) (w w' : world) :
  round_trip E ->
  plain_segment id = true ->
  id <> INSTALLED_DB ->
  remove E this id w = (Ok tt, w') ->
  exists l l',
    listInstalled E this w = (Ok (JArr l), w)
    /\ listInstalled E this w' = (Ok (JArr l'), w')
    /\ records_of id l' = []
    /\ (forall y, y <> id -> records_of y l' = records_of y l).
Proof.
  intros Hrt Hplain Hne Hrm.
  apply (remove_ledger _ _ _ _ _ Hrt) in Hrm as (l & l' & Hl & Hf & Hl').
  assert (~ join (installDir this) id `prefix_of` dbPath this) as Hpre.
  { rewrite (join_plain _ _ Hplain), dbPath_snoc. by intros ?%snoc_prefix_eq. }
  rewrite (ledger_same E this _ _ (without_other _ _ _ Hpre)) in Hl.
  exists l, l'. rewrite !listInstalled_ledger, Hl, Hl'.
  split; [done|]. split; [done|]. split.
  - by apply (records_of_filter_id _ _ _ Hf).
  - intros y Hy. by apply (records_of_filter_id_other _ _ _ _ Hf).
Qed.

Lemma remove_keeps_other_records_witness :
  exists l l',
    listInstalled Mock.services Mock.installer
      (Mock.after_install "beta" "1.0.0" (Mock.after_install "alpha" "1.0.0" Mock.fresh))
    = (Ok (JArr l),
       Mock.after_install "beta" "1.0.0" (Mock.after_install "alpha" "1.0.0" Mock.fresh))
    /\ listInstalled Mock.services Mock.installer
         (remove Mock.services Mock.installer "beta"
            (Mock.after_install "beta" "1.0.0" (Mock.after_install "alpha" "1.0.0" Mock.fresh))).2
       = (Ok (JArr l'),
          (remove Mock.services Mock.installer "beta"
             (Mock.after_install "beta" "1.0.0"
                (Mock.after_install "alpha" "1.0.0" Mock.fresh))).2)
    /\ records_of "alpha" l' = records_of "alpha" l.
Proof.
  destruct (remove_keeps_other_records Mock.services Mock.installer "beta"
              (Mock.after_install "beta" "1.0.0" (Mock.after_install "alpha" "1.0.0" Mock.fresh))
              (remove Mock.services Mock.installer "beta"
                 (Mock.after_install "beta" "1.0.0"
                    (Mock.after_install "alpha" "1.0.0" Mock.fresh))).2
              mock_round_trip eq_refl) as (l & l' & Hl & Hl' & _ & Hother).
  - discriminate.
  - vm_compute. reflexivity.
  - exists l, l'. split; [done|]. split; [done|]. by apply Hother.
Defined.

Lemma writeFileSync_run p data w :
  stat (files w) p <> Some Dir ->
  stat (files w) (removelast p) = Some Dir ->
  writeFileSync p data w = (Ok tt, set_files (<[p := File data]> (files w)) w).
Proof.
  intros Hp Hparent. unfold writeFileSync. rewrite Hparent.
  by destruct (stat (files w) p) as [[|text]|].
Qed.

Lemma snoc_not_prefix (p : list string) a : ~ (p ++ [a]) `prefix_of` p.
Proof.
  intros Hpre%prefix_length. rewrite length_app in Hpre. simpl in Hpre. lia.
Qed.

Lemma stat_frame (fs fs0 : gmap (list string) node) (d q : list string) :
  (forall p, ~ d `prefix_of` p -> fs !! p = fs0 !! p) ->
  ~ d `prefix_of` q ->
  stat fs q = stat fs0 q.
Proof. intros Hframe Hq. destruct q; [done|]. by apply Hframe. Qed.

(** X16. [install] does succeed on a fresh, plain id in a world that
    is ready for it: for a node manifest with a registry package, when
    npm succeeds writing only inside the target directory (and not a
    directory named manifest.json), and the ledger is absent or an
    array without [null] elements, [install] returns the record built
    at the clock reading of the call. *)
Theorem install_succeeds (E : environment) (this : Installer)
    (m : MCPServerManifest) (w : world) (package : string)
    (fs : gmap (list string) node) (l : list json) :
  let serverDir := join (installDir this) (manifest_id m) in
  ready E this w ->
  plain_segment (manifest_id m) = true ->
  manifest_id m <> INSTALLED_DB ->
  stat (files w) serverDir = None ->
  type (runtime m) = node_runtime ->
  truthy (npmPackage (installation m)) = Some package ->
  child_process E (set_files (<[serverDir := Dir]> (files w)) w)
    ("npm install " +:+ package) (Some serverDir) = inr fs ->
  (forall p, ~ serverDir `prefix_of` p -> fs !! p = files w !! p) ->
  fs !! serverDir = Some Dir ->
  fs !! (serverDir ++ ["manifest.json"]) <> Some Dir ->
  listInstalled E this w = (Ok (JArr l), w) ->
  Forall (fun s => s <> JNull) l ->
  stat (files w) (join (installDir this) INSTALLED_DB) <> Some Dir ->
  exists w', install E this m w = (Ok (record_at E this m (ticks w)), w').
Proof.
  intros serverDir Hready Hplain Hne Habs Htype Hnpm Hchild Hframe Hdir Hsnap Hlist Hnonnull Hdb.
  pose proof (ensureDirectories_ready _ _ _ Hready) as Hens.
  destruct Hready as (Hinst & _).
  assert (~ is_Some (stat (files w) serverDir)) as Hex
    by (rewrite Habs; by intros [? ?]).
  rewrite (install_absent _ _ _ _ _ Hens Hex). fold serverDir.
  assert (serverDir = installDir this ++ [manifest_id m]) as HserverDir
    by (by apply join_plain).
  assert (mkdirSync serverDir w = (Ok tt, set_files (<[serverDir := Dir]> (files w)) w))
    as Hmk.
  { rewrite HserverDir in *. by apply mkdirSync_child. }
  rewrite (bind_run _ _ _ _ _ Hmk).
  assert (dispatch E m serverDir (set_files (<[serverDir := Dir]> (files w)) w)
          = (Ok tt, {| files := fs;
                       spawned := spawned w ++ [("npm install " +:+ package, Some serverDir)];
                       ticks := ticks w |})) as Hdis.
  { unfold dispatch. rewrite Htype. unfold installNode. rewrite Hnpm.
    unfold execSync. by rewrite Hchild. }
  rewrite (bind_run _ _ _ _ _ Hdis).
  rewrite join_manifest.
  set (w3 := {| files := fs; spawned := _; ticks := _ |}).
  assert (writeFileSync (serverDir ++ ["manifest.json"])
            (JSON_stringify E (manifest_to_json m)) w3
          = (Ok tt, set_files (<[serverDir ++ ["manifest.json"] :=
                                   File (JSON_stringify E (manifest_to_json m))]> (files w3)) w3))
    as Hwr.
  { apply writeFileSync_run; simpl.
    - by rewrite stat_snoc.
    - rewrite removelast_snoc, HserverDir, stat_snoc, <- HserverDir. done. }
  rewrite (bind_run _ _ _ _ _ Hwr).
  rewrite !(bind_run _ _ _ _ _ (now_run _ _)). simpl.
  assert (~ serverDir `prefix_of` dbPath this) as Hpre.
  { rewrite HserverDir, dbPath_snoc. by intros ?%snoc_prefix_eq. }
  rewrite listInstalled_ledger in Hlist. injection Hlist as Hl.
  destruct (findIndex_id_total (manifest_id m) l Hnonnull) as [existing Hfind].
  set (w5 := {| files := _; spawned := _; ticks := _ |}).
  assert (files w5 !! dbPath this = files w !! dbPath this) as Hsame.
  { simpl. rewrite lookup_insert_ne by apply manifest_not_ledger. by apply Hframe. }
  assert (addToInstalledDb E this (record_at E this m (ticks w)) w5
          = (Ok tt,
             set_files (<[dbPath this :=
                            File (JSON_stringify E
                                    (JArr (upsert existing
                                             (server_to_json (record_at E this m (ticks w))) l)))]>
                          (files w5)) w5)) as Hadd.
  { unfold addToInstalledDb. rewrite (bind_run _ _ _ _ _ (listInstalled_ledger _ _ _)).
    rewrite (ledger_same E this _ _ Hsame), Hl.
    unfold as_array. rewrite (bind_run _ _ _ l w5 eq_refl).
    unfold lift at 1, bind at 1. simpl server_id. rewrite Hfind.
    apply writeFileSync_run.
    - fold (dbPath this). rewrite dbPath_snoc, stat_snoc, <- dbPath_snoc, Hsame.
      rewrite dbPath_snoc, <- stat_snoc, <- dbPath_snoc. exact Hdb.
    - fold (dbPath this). rewrite dbPath_snoc, removelast_snoc.
      rewrite <- Hinst. simpl files. rewrite stat_insert_ne.
      + apply stat_frame with serverDir; [done|].
        rewrite HserverDir. apply snoc_not_prefix.
      + rewrite HserverDir. intros Heq. apply (f_equal length) in Heq.
        rewrite !length_app in Heq. simpl in Heq. lia. }
  eexists. unfold record_at in *. fold serverDir in Hadd |- *.
  by rewrite (bind_run _ _ _ _ _ Hadd).
Qed.

Lemma install_succeeds_witness :
  exists w',
    install Mock.services Mock.installer (Mock.makeManifest "alpha" "1.0.0") Mock.fresh
    = (Ok (record_at Mock.services Mock.installer (Mock.makeManifest "alpha" "1.0.0") 0), w').
Proof.
  refine (install_succeeds Mock.services Mock.installer (Mock.makeManifest "alpha" "1.0.0")
            Mock.fresh "alpha-package"
            (<[ ["tmp"; "servers"; "alpha"] := Dir ]> (files Mock.fresh)) []
            _ eq_refl _ eq_refl eq_refl eq_refl eq_refl _ _ _ _ _ _).
  - split; [reflexivity|]. split; vm_compute; eauto.
  - discriminate.
  - intros p Hp. apply lookup_insert_ne. intros <-. by apply Hp.
  - by vm_compute.
  - by vm_compute.
  - vm_compute. reflexivity.
  - constructor.
  - by vm_compute.
Defined.

(** X17. [update] composes: after a successful [update] to [m] under
    an installation directory in normal form, the package is installed
    with the new manifest, [isInstalled(m.id)] is true and
    [getRunCommand(m.id)] is the command of [m], built on the path of
    the record returned. *)
Theorem update_then_queries (E : environment) (this : Installer)
    (m : MCPServerManifest) (w : world) (r : InstalledServer) (w' : world) :
  round_trip E ->
  keeps_ledger E this ->
  wf_path (installDir this) ->
  update E this m w = (Ok r, w') ->
  isInstalled E this (manifest_id m) w' = (Ok true, w')
  /\ getRunCommand E this (manifest_id m) w' = (Ok (Some (run_command m (server_path r))), w')
  /\ server_path r = path_join (path_to_string (installDir this)) (manifest_id m)
  /\ stat (files w') (join (join (installDir this) (manifest_id m)) "manifest.json")
     = Some (File (JSON_stringify E (manifest_to_json m))).
Proof.
  intros Hrt Hkeep Hwf (w1 & _ & Hins)%update_Ok.
  pose proof (install_getInstalled _ _ _ _ _ _ Hrt Hkeep Hins) as Hget.
  apply (install_Ok _ _ _ _ _ _ Hkeep) in Hins as (-> & _ & _ & _ & Hfile & _).
  assert (Hsnap : stat (files w')
                    (join (join (installDir this) (manifest_id m)) "manifest.json")
                  = Some (File (JSON_stringify E (manifest_to_json m))))
    by (by rewrite join_manifest, stat_snoc).
  split; [by rewrite isInstalled_run, Hget|].
  split; [|by split].
  eapply getRunCommand_snapshot; [done|exact Hget|reflexivity|].
  change (server_path (record_at E this m (ticks w1)))
    with (path_join (path_to_string (installDir this)) (manifest_id m)).
  by rewrite (resolve_path_join E _ _ Hwf).
Qed.

Lemma update_then_queries_witness :
  isInstalled Mock.services Mock.installer "beta"
    (update Mock.services Mock.installer (Mock.makeManifest "beta" "1.1.0")
       (Mock.after_install "beta" "1.0.0" Mock.fresh)).2
  = (Ok true,
     (update Mock.services Mock.installer (Mock.makeManifest "beta" "1.1.0")
        (Mock.after_install "beta" "1.0.0" Mock.fresh)).2).
Proof.
  refine (proj1 (update_then_queries Mock.services Mock.installer
                   (Mock.makeManifest "beta" "1.1.0")
                   (Mock.after_install "beta" "1.0.0" Mock.fresh)
                   (record_at Mock.services Mock.installer (Mock.makeManifest "beta" "1.1.0") 2)
                   _ mock_round_trip mock_keeps_ledger _ _)).
  - by repeat constructor.
  - vm_compute. reflexivity.
Defined.

(** * Further properties of src/config.ts *)

Module ConfigFacts.
Import Config.

Section Objects.

Context {A : Type}.
Implicit Types (obj : list (string * A)) (k : string) (v : A).

Lemma own_None k obj : own k obj = None <-> k ∉ map fst obj.
Proof.
  induction obj as [|[k' v'] obj IH]; simpl.
  - split; [intros _; apply not_elem_of_nil|done].
  - rewrite not_elem_of_cons. destruct (String.eqb_spec k k') as [->|Hne].
    + split; [done|]. by intros [? _].
    + rewrite IH. split; [done|]. by intros [_ ?].
Qed.

Lemma own_app k obj1 obj2 :
  own k (obj1 ++ obj2) = match own k obj1 with Some v => Some v | None => own k obj2 end.
Proof.
  induction obj1 as [|[k' v'] obj1 IH]; simpl; [done|].
  by destruct (String.eqb k k').
Qed.

Lemma own_replace k k' v obj :
  is_Some (own k' obj) ->
  own k (replace k' v obj) = if String.eqb k k' then Some v else own k obj.
Proof.
  induction obj as [|[k0 v0] obj IH]; simpl; [by intros [? ?]|].
  destruct (String.eqb_spec k' k0) as [->|Hne]; simpl.
  - intros _. by destruct (String.eqb k k0).
  - intros Hsome. destruct (String.eqb_spec k k0) as [->|Hne'].
    + apply not_eq_sym in Hne. by apply String.eqb_neq in Hne as ->.
    + by apply IH.
Qed.

Lemma own_insert_index n k k' v obj :
  own k' obj = None ->
  own k (insert_index n k' v obj) = if String.eqb k k' then Some v else own k obj.
Proof.
  induction obj as [|[k0 v0] obj IH]; simpl; [done|].
  destruct (String.eqb_spec k' k0) as [->|Hne]; [done|]. intros Hnone.
  destruct (array_index k0) as [n'|]; [destruct (n <? n')%N|]; simpl; try done.
  destruct (String.eqb_spec k k0) as [->|Hne'].
  - apply not_eq_sym in Hne. by apply String.eqb_neq in Hne as ->.
  - by apply IH.
Qed.

Lemma own_define k k' v obj :
  own k (define k' v obj) = if String.eqb k k' then Some v else own k obj.
Proof.
  unfold define. destruct (own k' obj) as [x|] eqn:Hown.
  - apply own_replace. rewrite Hown. eauto.
  - destruct (array_index k') as [n|]; [by apply own_insert_index|].
    rewrite own_app. simpl. destruct (String.eqb_spec k k') as [->|Hne].
    + by rewrite Hown.
    + by destruct (own k obj).
Qed.

Lemma own_assign k (target source : list (string * A)) :
  own k (assign target source)
  = match own k (rev source) with Some v => Some v | None => own k target end.
Proof.
  unfold assign. revert target.
  induction source as [|[k' v'] source IH]; intros target; simpl; [done|].
  rewrite IH, own_app, own_define. simpl.
  destruct (own k (rev source)); [done|]. by destruct (String.eqb k k').
Qed.

Lemma own_rev k obj : NoDup (map fst obj) -> own k (rev obj) = own k obj.
Proof.
  induction obj as [|[k' v'] obj IH]; simpl; [done|].
  intros [Hnotin Hnodup]%NoDup_cons. rewrite own_app, (IH Hnodup). simpl.
  destruct (String.eqb_spec k k') as [->|Hne].
  - by apply own_None in Hnotin as ->.
  - by destruct (own k obj).
Qed.

Lemma own_spread k (a b : list (string * A)) :
  NoDup (map fst a) -> NoDup (map fst b) ->
  own k (spread a b) = match own k b with Some v => Some v | None => own k a end.
Proof.
  intros Ha Hb. unfold spread. rewrite !own_assign, (own_rev _ _ Ha), (own_rev _ _ Hb).
  simpl. by destruct (own k b), (own k a).
Qed.

Lemma keys_replace k v obj : map fst (replace k v obj) = map fst obj.
Proof.
  induction obj as [|[k' v'] obj IH]; simpl; [done|].
  destruct (String.eqb k k'); simpl; [done|]. by rewrite IH.
Qed.

Lemma keys_insert_index n k v obj : map fst (insert_index n k v obj) ≡ₚ k :: map fst obj.
Proof.
  induction obj as [|[k' v'] obj IH]; simpl; [done|].
  destruct (array_index k') as [n'|]; [destruct (n <? n')%N|]; simpl; try done.
  rewrite IH. apply Permutation_swap.
Qed.

Lemma NoDup_define k v obj : NoDup (map fst obj) -> NoDup (map fst (define k v obj)).
Proof.
  intros Hnodup. unfold define. destruct (own k obj) as [x|] eqn:Hown.
  - by rewrite keys_replace.
  - apply own_None in Hown. destruct (array_index k) as [n|].
    + rewrite keys_insert_index. by apply NoDup_cons.
    + rewrite map_app. simpl. apply NoDup_app. split; [done|]. split.
      * intros x Hx ->%list_elem_of_singleton. done.
      * apply NoDup_singleton.
Qed.

Lemma NoDup_assign (target source : list (string * A)) :
  NoDup (map fst target) -> NoDup (map fst (assign target source)).
Proof.
  unfold assign. revert target.
  induction source as [|[k v] source IH]; intros target Ht; simpl; [done|].
  apply IH. by apply NoDup_define.
Qed.

Lemma NoDup_spread (a b : list (string * A)) : NoDup (map fst (spread a b)).
Proof. unfold spread. apply NoDup_assign, NoDup_assign. constructor. Qed.

End Objects.

Lemma own_defined k (obj : list (string * jsval)) :
  NoDup (map fst obj) ->
  own k (defined obj) = match own k obj with Some (Some v) => Some v | _ => None end.
Proof.
  induction obj as [|[k' [v'|]] obj IH]; simpl; [done|..];
    intros [Hnotin Hnodup]%NoDup_cons.
  - destruct (String.eqb k k'); [done|]. by apply IH.
  - rewrite (IH Hnodup). destruct (String.eqb_spec k k') as [->|Hne]; [|done].
    by apply own_None in Hnotin as ->.
Qed.

Lemma keys_defined (obj : list (string * jsval)) :
  NoDup (map fst obj) -> NoDup (map fst (defined obj)).
Proof.
  induction obj as [|[k' [v'|]] obj IH]; simpl; [done|..];
    intros [Hnotin Hnodup]%NoDup_cons; [|by apply IH].
  apply NoDup_cons. split; [|by apply IH].
  intros Hin. apply Hnotin. clear -Hin.
  induction obj as [|[k [v|]] obj IH]; simpl in *; [done|..].
  - apply elem_of_cons in Hin as [->|Hin]; [left|right; by apply IH].
  - right. by apply IH.
Qed.

Lemma own_map_Some k (obj : list (string * json)) :
  own k (map (fun kv => (kv.1, Some kv.2)) obj) = Some <$> own k obj.
Proof.
  induction obj as [|[k' v'] obj IH]; simpl; [done|].
  by destruct (String.eqb k k').
Qed.

Lemma keys_map_Some (obj : list (string * json)) :
  map fst (map (fun kv : string * json => (kv.1, Some kv.2)) obj) = map fst obj.
Proof. induction obj as [|[k' v'] obj IH]; simpl; [done|]. by rewrite IH. Qed.

Section Config.

Variable E : environment.
Variable homedir : list string.

Abbreviation DEFAULT_CONFIG := (DEFAULT_CONFIG homedir).
Abbreviation CONFIG_PATH := (CONFIG_PATH homedir).
Abbreviation config_of := (config_of E homedir).

Lemma CONFIG_PATH_snoc : CONFIG_PATH = (homedir ++ [".mcp-registry"]) ++ ["config.json"].
Proof. reflexivity. Qed.

Lemma NoDup_DEFAULT_CONFIG : NoDup (map fst DEFAULT_CONFIG).
Proof. simpl. apply (bool_decide_unpack _). by vm_compute. Qed.

Lemma spread_DEFAULT_CONFIG_nil : spread DEFAULT_CONFIG [] = DEFAULT_CONFIG.
Proof. reflexivity. Qed.

Lemma getConfig_run w : getConfig E homedir w = (Ok (config_of (files w)), w).
Proof.
  unfold getConfig, config_of.
  rewrite (bind_run _ _ _ _ _ (existsSync_run _ _)).
  unfold try_catch, bind, readFileSync, parse.
  destruct (stat (files w) CONFIG_PATH) as [[|text]|] eqn:Hstat.
  - rewrite bool_decide_true by eauto. by rewrite Hstat.
  - rewrite bool_decide_true by eauto. rewrite Hstat.
    unfold ret, throw. by destruct (JSON_parse E text).
  - rewrite bool_decide_false; [done|]. by intros [? ?].
Qed.

Lemma NoDup_config_of fs : NoDup (map fst (config_of fs)).
Proof.
  unfold config_of.
  destruct (stat fs CONFIG_PATH) as [[|text]|]; try apply NoDup_DEFAULT_CONFIG.
  destruct (JSON_parse E text); [apply NoDup_spread|apply NoDup_DEFAULT_CONFIG].
Qed.

Lemma own_spread_DEFAULT k (user : list (string * json)) :
  own k (spread DEFAULT_CONFIG user)
  = match own k (rev user) with Some v => Some v | None => own k DEFAULT_CONFIG end.
Proof.
  unfold spread. rewrite !own_assign, (own_rev _ _ NoDup_DEFAULT_CONFIG).
  simpl own at 3. by destruct (own k (rev user)), (own k DEFAULT_CONFIG).
Qed.

Lemma config_of_has_defaults fs k :
  own k (config_of fs) = None -> own k DEFAULT_CONFIG = None.
Proof.
  unfold config_of.
  destruct (stat fs CONFIG_PATH) as [[|text]|]; try done.
  destruct (JSON_parse E text) as [userConfig|]; [|done].
  rewrite own_spread_DEFAULT. by destruct (own k (rev (own_properties userConfig))).
Qed.

End Config.

End ConfigFacts.

Example spread_enumeration_order :
  Config.spread [("b", JNum 1)] [("10", JNum 2); ("a", JNum 3); ("2", JNum 4); ("b", JNum 5)]
  = [("2", JNum 4); ("10", JNum 2); ("b", JNum 5); ("a", JNum 3)].
Proof. reflexivity. Qed.

Example getConfig_configured :
  (Config.getConfig Mock.services Mock.home Mock.configured).1
  = Ok [("registryUrl", JStr "https://registry.mcp.dev");
        ("cacheDir", JStr "/home/user/.mcp-registry/cache");
        ("installDir", JStr "/opt/servers");
        ("mcpConfigPath", JStr "/home/user/.config/mcp/settings.json");
        ("theme", JStr "dark")].
Proof. by vm_compute. Qed.

(** X18. [getConfig] falls back on DEFAULT_CONFIG, without an error,
    when config.json is missing, is a directory, does not parse, or
    parses to a value without properties ([null], a number, a boolean,
    an empty object). *)
Theorem getConfig_falls_back (E : environment) (homedir : list string) (w : world) :
  stat (files w) (Config.CONFIG_PATH homedir) = None
  \/ stat (files w) (Config.CONFIG_PATH homedir) = Some Dir
  \/ (exists text,
        stat (files w) (Config.CONFIG_PATH homedir) = Some (File text)
        /\ (JSON_parse E text = None
            \/ exists v, JSON_parse E text = Some v /\ Config.own_properties v = [])) ->
  Config.getConfig E homedir w = (Ok (Config.DEFAULT_CONFIG homedir), w).
Proof.
  rewrite ConfigFacts.getConfig_run. unfold Config.config_of.
  intros [->|[->|(text & -> & [->|(v & -> & ->)])]]; reflexivity.
Qed.

Lemma getConfig_falls_back_witness :
  Config.getConfig Mock.services Mock.home Mock.unconfigured
  = (Ok (Config.DEFAULT_CONFIG Mock.home), Mock.unconfigured).
Proof.
  apply (getConfig_falls_back Mock.services Mock.home Mock.unconfigured).
  left. reflexivity.
Defined.

(** X19. When config.json parses to an object, [getConfig] overlays it
    on the defaults: every key of the file has the value of the file,
    every other key has its default, if it has one. *)
Theorem getConfig_overlays (E : environment) (homedir : list string) (w : world)
    (text : string) (user : list (string * json)) :
  stat (files w) (Config.CONFIG_PATH homedir) = Some (File text) ->
  JSON_parse E text = Some (JObj user) ->
  NoDup (map fst user) ->
  exists config,
    Config.getConfig E homedir w = (Ok config, w)
    /\ forall k,
         Config.own k config
         = match Config.own k user with
           | Some v => Some v
           | None => Config.own k (Config.DEFAULT_CONFIG homedir)
           end.
Proof.
  intros Hfile Hparse Hnodup. eexists. rewrite ConfigFacts.getConfig_run.
  split; [done|]. intros k. unfold Config.config_of. rewrite Hfile, Hparse.
  rewrite ConfigFacts.own_spread_DEFAULT. simpl Config.own_properties.
  by rewrite (ConfigFacts.own_rev _ _ Hnodup).
Qed.

Lemma getConfig_overlays_witness :
  exists config,
    Config.getConfig Mock.services Mock.home Mock.configured = (Ok config, Mock.configured)
    /\ Config.own "installDir" config = Some (JStr "/opt/servers")
    /\ Config.own "cacheDir" config = Some (JStr "/home/user/.mcp-registry/cache").
Proof.
  destruct (getConfig_overlays Mock.services Mock.home Mock.configured
              (Codec.stringify (JObj Mock.user_config)) Mock.user_config)
    as (config & Hrun & Hown).
  - reflexivity.
  - apply mock_round_trip.
  - apply (bool_decide_unpack _). by vm_compute.
  - exists config. split; [done|]. by rewrite !Hown.
Defined.

(** X20. Whatever config.json holds, [getConfig] returns an object
    that has the four keys of the defaults. *)
Theorem getConfig_has_defaults (E : environment) (homedir : list string) (w : world) :
  exists config,
    Config.getConfig E homedir w = (Ok config, w)
    /\ is_Some (Config.own "registryUrl" config)
    /\ is_Some (Config.own "cacheDir" config)
    /\ is_Some (Config.own "installDir" config)
    /\ is_Some (Config.own "mcpConfigPath" config).
Proof.
  eexists. rewrite ConfigFacts.getConfig_run. split; [done|].
  assert (forall k, is_Some (Config.own k (Config.DEFAULT_CONFIG homedir)) ->
                    is_Some (Config.own k (Config.config_of E homedir (files w)))) as Hkeep.
  { intros k Hk.
    destruct (Config.own k (Config.config_of E homedir (files w))) eqn:Hown; [eauto|].
    apply ConfigFacts.config_of_has_defaults in Hown. rewrite Hown in Hk. by destruct Hk. }
  repeat split; apply Hkeep; simpl; eauto.
Qed.

(** X21. [setConfig] then [getConfig]: after a successful
    [setConfig(updates)] every key that [updates] defines has the
    value of [updates], every key that [updates] sets to [undefined] is
    back to its default (it is not written), and every other key is as
    [getConfig] gave it before. *)
Theorem setConfig_then_getConfig (E : environment) (homedir : list string)
    (updates : list (string * jsval)) (w w' : world) :
  round_trip E ->
  NoDup (map fst updates) ->
  Config.setConfig E homedir updates w = (Ok tt, w') ->
  exists before after,
    Config.getConfig E homedir w = (Ok before, w)
    /\ Config.getConfig E homedir w' = (Ok after, w')
    /\ forall k,
         Config.own k after
         = match Config.own k updates with
           | Some (Some v) => Some v
           | Some None => Config.own k (Config.DEFAULT_CONFIG homedir)
           | None => Config.own k before
           end.
Proof.
  intros Hrt Hnodup Hset. unfold Config.setConfig in Hset.
  rewrite (bind_run _ _ _ _ _ (ConfigFacts.getConfig_run E homedir w)) in Hset.
  cbv zeta in Hset.
  apply bind_Ok in Hset as (present & w0 & Hex & Hset).
  rewrite existsSync_run in Hex. injection Hex as <- <-.
  apply bind_Ok in Hset as ([] & w1 & _ & Hwr).
  apply writeFileSync_Ok in Hwr as (_ & _ & ->).
  eexists _, _. rewrite !ConfigFacts.getConfig_run. split; [done|]. split; [done|].
  intros k. simpl files. unfold Config.config_of at 1.
  rewrite ConfigFacts.CONFIG_PATH_snoc, stat_snoc, lookup_insert_eq, Hrt.
  simpl Config.own_properties.
  set (before := Config.config_of E homedir (files w)).
  set (newConfig := Config.spread (map (fun kv : string * json => (kv.1, Some kv.2)) before)
                      updates).
  assert (NoDup (map fst newConfig)) as Hnew by apply ConfigFacts.NoDup_spread.
  rewrite ConfigFacts.own_spread_DEFAULT.
  rewrite (ConfigFacts.own_rev _ _ (ConfigFacts.keys_defined _ Hnew)).
  rewrite (ConfigFacts.own_defined _ _ Hnew).
  unfold newConfig. rewrite ConfigFacts.own_spread; [|rewrite ConfigFacts.keys_map_Some; apply ConfigFacts.NoDup_config_of|done].
  rewrite ConfigFacts.own_map_Some.
  destruct (Config.own k updates) as [[v|]|]; [done..|].
  destruct (Config.own k before) as [v|] eqn:Hbefore; simpl; [done|].
  by apply ConfigFacts.config_of_has_defaults in Hbefore.
Qed.

Lemma setConfig_then_getConfig_witness :
  exists before after,
    Config.getConfig Mock.services Mock.home Mock.configured = (Ok before, Mock.configured)
    /\ Config.getConfig Mock.services Mock.home
         (Config.setConfig Mock.services Mock.home
            [("cacheDir", Some (JStr "/var/cache/mcp")); ("installDir", None)]
            Mock.configured).2
       = (Ok after,
          (Config.setConfig Mock.services Mock.home
             [("cacheDir", Some (JStr "/var/cache/mcp")); ("installDir", None)]
             Mock.configured).2)
    /\ Config.own "cacheDir" after = Some (JStr "/var/cache/mcp")
    /\ Config.own "installDir" after = Some (JStr "/home/user/.mcp-registry/servers")
    /\ Config.own "theme" after = Config.own "theme" before.
Proof.
  destruct (setConfig_then_getConfig Mock.services Mock.home
              [("cacheDir", Some (JStr "/var/cache/mcp")); ("installDir", None)]
              Mock.configured
              (Config.setConfig Mock.services Mock.home
                 [("cacheDir", Some (JStr "/var/cache/mcp")); ("installDir", None)]
                 Mock.configured).2
              mock_round_trip) as (before & after & Hbefore & Hafter & Hown).
  - apply (bool_decide_unpack _). by vm_compute.
  - vm_compute. reflexivity.
  - exists before, after. split; [done|]. split; [done|]. by rewrite !Hown.
Defined.

(** X22. [setConfig] writes config.json and nothing else: whether it
    succeeds or fails, it runs no command, does not read the clock, and
    away from config.json it only adds the directories it needs; when
    it fails, config.json itself is as it was. *)
Theorem setConfig_frame (E : environment) (homedir : list string)
    (updates : list (string * jsval)) (w : world) (r : result unit) (w' : world) :
  Config.setConfig E homedir updates w = (r, w') ->
  spawned w' = spawned w
  /\ ticks w' = ticks w
  /\ (forall p, p <> Config.CONFIG_PATH homedir ->
                files w' !! p = files w !! p
                \/ (files w !! p = None /\ files w' !! p = Some Dir))
  /\ (forall e, r = Throw e -> grows (files w) (files w')).
Proof.
  unfold Config.setConfig.
  rewrite (bind_run _ _ _ _ _ (ConfigFacts.getConfig_run E homedir w)). cbv zeta.
  set (text := JSON_stringify E _).
  rewrite (bind_run _ _ _ _ _ (existsSync_run _ _)).
  assert (forall w1,
             grows (files w) (files w1) -> spawned w1 = spawned w -> ticks w1 = ticks w ->
             writeFileSync (Config.CONFIG_PATH homedir) text w1 = (r, w') ->
             spawned w' = spawned w
             /\ ticks w' = ticks w
             /\ (forall p, p <> Config.CONFIG_PATH homedir ->
                           files w' !! p = files w !! p
                           \/ (files w !! p = None /\ files w' !! p = Some Dir))
             /\ (forall e, r = Throw e -> grows (files w) (files w'))) as Hwrite.
  { intros w1 Hg Hs Ht Hwr.
    pose proof (writeFileSync_result _ _ _ _ _ Hwr) as (Hs' & Ht').
    split; [congruence|]. split; [congruence|]. split.
    - intros p Hp. rewrite (writeFileSync_other _ _ _ _ _ p Hwr) by done. apply Hg.
    - intros e ->. by apply writeFileSync_Throw in Hwr as [_ ->]. }
  destruct (negb _).
  - unfold bind. destruct (mkdirSync _ w) as [[[]|e] w1] eqn:Hmk;
      apply mkdirSync_grows in Hmk as (Hg & Hs & Ht).
    + by apply Hwrite.
    + intros [= <- <-]. split; [done|]. split; [done|]. split; [|done].
      intros p _. apply Hg.
  - unfold bind, ret. apply Hwrite; [apply grows_refl|done..].
Qed.

Lemma setConfig_frame_witness :
  files (Config.setConfig Mock.services Mock.home
           [("cacheDir", Some (JStr "/var/cache/mcp"))] Mock.unconfigured).2
    !! ["home"; "user"; ".mcp-registry"]
  = Some Dir.
Proof.
  destruct (setConfig_frame Mock.services Mock.home
              [("cacheDir", Some (JStr "/var/cache/mcp"))] Mock.unconfigured
              (Ok tt)
              (Config.setConfig Mock.services Mock.home
                 [("cacheDir", Some (JStr "/var/cache/mcp"))] Mock.unconfigured).2)
    as (_ & _ & Hother & _).
  - vm_compute. reflexivity.
  - destruct (Hother ["home"; "user"; ".mcp-registry"]) as [Heq|[_ Hdir]].
    + discriminate.
    + vm_compute in Heq. discriminate Heq.
    + exact Hdir.
Defined.
